(** * Verification of [src/fetchers/stats-fetcher.js]

    A shallow embedding of the statistics fetcher: the year-bucket
    aggregator [totalCommitsFetcher] and the profile assembler
    [fetchStats], together with the fragment of JavaScript they run on
    (property access, truthiness, the [+] operator, template literals,
    promises settled by an external executor).

    Modelling conventions.
    - JavaScript values are the JSON values a response can hold, plus
      [undefined] and [NaN].  Numbers are the integers the upstream API
      reports (counts and years); fractions, infinities, the negative zero
      and the loss of precision of doubles above 2^53 are outside the model.
    - An [async] function is a computation in the monad [M]: it threads the
      trace of observable events (executor invocations and log lines) and
      ends normally or by throwing.
    - The collaborators required from outside the file ([retryer],
      [calculateRank], the [github-username-regex] package) are the fields
      of the class [Collaborators]. *)

From Stdlib Require Import ZArith List String Ascii Bool Lia Permutation.
From Stdlib Require Import DecimalString.
Import ListNotations.
Local Open Scope string_scope.
Local Open Scope list_scope.
Local Open Scope Z_scope.

(** ** JavaScript values *)

#[local] Set Warnings "-register-all".

Inductive JsVal : Type :=
| JUndefined
| JNull
| JBool (b : bool)
| JNum (z : Z)
| JNaN
| JStr (s : string)
| JArr (elems : list JsVal)
| JObj (props : list (string * JsVal)).

(** What a [throw] or a rejected promise carries. *)
Inductive ErrorClass : Type :=
| USER_NOT_FOUND.

Inductive Thrown : Type :=
| TypeError
| MissingParamError (missedParams : list string)
| CustomError (message : JsVal) (type : ErrorClass)
| Rejected (reason : JsVal).

(** The completion of an evaluation: a value, or an abrupt [throw]. *)
Inductive Completion (A : Type) : Type :=
| Normal (a : A)
| Throw (e : Thrown).
Arguments Normal {A} a.
Arguments Throw {A} e.

Definition cbind {A B} (c : Completion A) (k : A -> Completion B) : Completion B :=
  match c with
  | Normal a => k a
  | Throw e => Throw e
  end.

(** The decimal rendering of an integer, as [Number.prototype.toString]
    prints it. *)
Definition string_of_Z (z : Z) : string :=
  NilZero.string_of_int (Z.to_int z).

(** [ToString]. *)
Fixpoint js_to_string (v : JsVal) : string :=
  match v with
  | JUndefined => "undefined"
  | JNull => "null"
  | JBool true => "true"
  | JBool false => "false"
  | JNum z => string_of_Z z
  | JNaN => "NaN"
  | JStr s => s
  | JArr elems =>
      (* Array.prototype.join: holes of null and undefined print empty *)
      (fix join (l : list JsVal) : string :=
         match l with
         | [] => ""
         | x :: rest =>
             let sx := match x with
                       | JUndefined | JNull => ""
                       | _ => js_to_string x
                       end in
             match rest with
             | [] => sx
             | _ :: _ => (sx ++ "," ++ join rest)%string
             end
         end) elems
  | JObj _ => "[object Object]"
  end.

(** [ToBoolean]. *)
Definition js_truthy (v : JsVal) : bool :=
  match v with
  | JUndefined | JNull | JNaN => false
  | JBool b => b
  | JNum z => negb (z =? 0)
  | JStr s => negb (String.eqb s "")
  | JArr _ | JObj _ => true
  end.

(** [a || b] on values already evaluated; the callers below only evaluate
    the right operand when the left one is falsy. *)
Definition js_or (a b : JsVal) : JsVal :=
  if js_truthy a then a else b.

(** [ToPrimitive]: arrays and plain objects go through [toString]. *)
Definition js_to_primitive (v : JsVal) : JsVal :=
  match v with
  | JArr _ | JObj _ => JStr (js_to_string v)
  | _ => v
  end.

(** [ToNumber] on the primitives that are not strings; [None] is [NaN].
    [js_add] only applies it to such primitives. *)
Definition js_to_number (v : JsVal) : option Z :=
  match v with
  | JNull => Some 0
  | JBool true => Some 1
  | JBool false => Some 0
  | JNum z => Some z
  | _ => None
  end.

Definition js_of_number (n : option Z) : JsVal :=
  match n with
  | Some z => JNum z
  | None => JNaN
  end.

Definition num_add (a b : option Z) : option Z :=
  match a, b with
  | Some x, Some y => Some (x + y)
  | _, _ => None
  end.

(** The [+] operator: concatenation as soon as one primitive operand is a
    string, numeric addition otherwise. *)
Definition js_add (a b : JsVal) : JsVal :=
  let pa := js_to_primitive a in
  let pb := js_to_primitive b in
  match pa, pb with
  | JStr s, _ => JStr (s ++ js_to_string pb)%string
  | _, JStr s => JStr (js_to_string pa ++ s)%string
  | _, _ => js_of_number (num_add (js_to_number pa) (js_to_number pb))
  end.

Fixpoint assoc (k : string) (props : list (string * JsVal)) : option JsVal :=
  match props with
  | [] => None
  | (k', v) :: rest => if String.eqb k k' then Some v else assoc k rest
  end.

Definition or_undefined (o : option JsVal) : JsVal :=
  match o with
  | Some v => v
  | None => JUndefined
  end.

(** [v.k] for the data property names this file reads (none of them is a
    method or an accessor of a built-in prototype): a [TypeError] on
    [undefined] and [null], the own property of an object, [undefined]
    on anything else.  Destructuring [const {k} = v] reads [k] the same
    way. *)
Definition js_get (v : JsVal) (k : string) : Completion JsVal :=
  match v with
  | JUndefined | JNull => Throw TypeError
  | JObj props => Normal (or_undefined (assoc k props))
  | JArr elems =>
      if String.eqb k "length" then Normal (JNum (Z.of_nat (List.length elems)))
      else Normal JUndefined
  | JStr s =>
      if String.eqb k "length" then Normal (JNum (Z.of_nat (String.length s)))
      else Normal JUndefined
  | JBool _ | JNum _ | JNaN => Normal JUndefined
  end.

(** [v[i]] for a literal index [i]. *)
Definition js_get_index (v : JsVal) (i : nat) : Completion JsVal :=
  match v with
  | JUndefined | JNull => Throw TypeError
  | JArr elems => Normal (nth i elems JUndefined)
  | JObj props => Normal (or_undefined (assoc (string_of_Z (Z.of_nat i)) props))
  | JStr s =>
      match String.get i s with
      | Some c => Normal (JStr (String c EmptyString))
      | None => Normal JUndefined
      end
  | JBool _ | JNum _ | JNaN => Normal JUndefined
  end.

(** A chain of property reads [v.k1.k2...]. *)
Fixpoint js_path (v : JsVal) (ks : list string) : Completion JsVal :=
  match ks with
  | [] => Normal v
  | k :: ks' => cbind (js_get v k) (fun v' => js_path v' ks')
  end.

(** The receiver of [.map] and [.reduce]: only an array has them. *)
Definition js_array (v : JsVal) : Completion (list JsVal) :=
  match v with
  | JArr elems => Normal elems
  | _ => Throw TypeError
  end.

(** ** The two queries

    [retryer] is handed one of the two request builders of the file; each
    sends a fixed GraphQL document with the variables it is given. *)

Inductive Fetcher : Type :=
| fetcher
| fetchYearCommits.

Definition fetcher_query : string := "
      query userInfo($login: String!) {
        user(login: $login) {
          name
          login
          contributionsCollection {
            totalCommitContributions
            restrictedContributionsCount
            contributionYears
          }
          repositoriesContributedTo(first: 1, contributionTypes: [COMMIT, ISSUE, PULL_REQUEST, REPOSITORY]) {
            totalCount
          }
          pullRequests(first: 1) {
            totalCount
          }
          openIssues: issues(states: OPEN) {
            totalCount
          }
          closedIssues: issues(states: CLOSED) {
            totalCount
          }
          followers {
            totalCount
          }
          repositories(first: 100, ownerAffiliations: OWNER, orderBy: {direction: DESC, field: STARGAZERS}) {
            totalCount
            nodes {
              stargazers {
                totalCount
              }
            }
          }
        }
      }
      ".

Definition fetchYearCommits_query : string := "
      query userInfo($login: String!, $from_time: DateTime!) {
        user(login: $login) {
          contributionsCollection(from: $from_time) {
            totalCommitContributions
            restrictedContributionsCount
          }
        }
      }
      ".

Definition query_of (f : Fetcher) : string :=
  match f with
  | fetcher => fetcher_query
  | fetchYearCommits => fetchYearCommits_query
  end.

(** [needle] occurs in [text]. *)
Definition occurs_in (needle text : string) : bool :=
  match String.index 0 needle text with
  | Some _ => true
  | None => false
  end.

(** ** Effects

    The observable events of a run, in the order they happen. *)

Inductive Event : Type :=
| ECall (f : Fetcher) (variables : JsVal)  (* retryer(f, variables) *)
| ELog (message : JsVal)                   (* logger.log(message) *)
| ELogThrown (err : Thrown)                (* logger.log(err) in a catch *)
| ELogError (payload : JsVal).             (* logger.error(payload) *)

Definition Trace : Type := list Event.

(** An [async] function body: from the trace so far to a completion and
    the extended trace. *)
Definition M (A : Type) : Type := Trace -> Completion A * Trace.

Definition ret {A} (a : A) : M A := fun t => (Normal a, t).

Definition bind {A B} (m : M A) (k : A -> M B) : M B :=
  fun t =>
    match m t with
    | (Normal a, t') => k a t'
    | (Throw e, t') => (Throw e, t')
    end.

Definition throw {A} (e : Thrown) : M A := fun t => (Throw e, t).

(** [try { body } catch (err) { handler }]. *)
Definition try_catch {A} (body : M A) (handler : Thrown -> M A) : M A :=
  fun t =>
    match body t with
    | (Normal a, t') => (Normal a, t')
    | (Throw e, t') => handler e t'
    end.

Definition emit (ev : Event) : M unit := fun t => (Normal tt, t ++ [ev]).

(** An expression that may throw but has no other effect. *)
Definition lift {A} (c : Completion A) : M A := fun t => (c, t).

Notation "'let*' x ':=' c 'in' k" := (bind c (fun x => k))
  (at level 10, x pattern, c at level 100, k at level 200).
Notation "'let?' x ':=' c 'in' k" := (cbind c (fun x => k))
  (at level 10, x pattern, c at level 100, k at level 200).

(** A promise is represented by the way it eventually settles. *)
Definition Promise : Type := Completion JsVal.

Definition await {A} (p : Completion A) : M A := lift p.

(** The network calls of a trace. *)
Fixpoint network_calls (t : Trace) : list (Fetcher * JsVal) :=
  match t with
  | [] => []
  | ECall f variables :: t' => (f, variables) :: network_calls t'
  | _ :: t' => network_calls t'
  end.

(** ** Collaborators *)

Module Rank.
(** The argument object of [calculateRank]. *)
Record args : Type := {
  totalCommits : JsVal;
  totalRepos : JsVal;
  followers : JsVal;
  contributions : JsVal;
  stargazers : JsVal;
  prs : JsVal;
  issues : JsVal
}.
End Rank.

(** What the file requires from other modules.  [retryer f variables] is
    the settlement of the promise the call returns; during one run the
    executor answers a request as a function of the request.
    [githubUsernameRegex_test] is [RegExp.prototype.test] of the pattern
    exported by the package, applied to a string.  [calculateRank] is a
    pure function. *)
Class Collaborators : Type := {
  retryer : Fetcher -> JsVal -> Promise;
  githubUsernameRegex_test : string -> bool;
  calculateRank : Rank.args -> JsVal
}.

(** The order in which the pending per-year promises settle is not fixed
    by the program: any rearrangement of the issue order may occur. *)
Class Scheduler : Type := {
  arrive : list Promise -> list Promise;
  arrive_perm : forall ps, Permutation ps (arrive ps)
}.

Definition in_issue_order : Scheduler :=
  {| arrive := fun ps => ps; arrive_perm := @Permutation_refl Promise |}.

Definition in_reverse_order : Scheduler :=
  {| arrive := @rev Promise; arrive_perm := @Permutation_rev Promise |}.

(** ** The statistics record *)

Record StatsData : Type := {
  name : JsVal;
  totalPRs : JsVal;
  totalCommits : JsVal;
  totalIssues : JsVal;
  totalStars : JsVal;
  contributedTo : JsVal;
  rank : JsVal
}.

(** Assignments [stats.field = v]. *)
Definition set_name (stats : StatsData) (v : JsVal) : StatsData :=
  {| name := v; totalPRs := totalPRs stats; totalCommits := totalCommits stats;
     totalIssues := totalIssues stats; totalStars := totalStars stats;
     contributedTo := contributedTo stats; rank := rank stats |}.

Definition set_totalPRs (stats : StatsData) (v : JsVal) : StatsData :=
  {| name := name stats; totalPRs := v; totalCommits := totalCommits stats;
     totalIssues := totalIssues stats; totalStars := totalStars stats;
     contributedTo := contributedTo stats; rank := rank stats |}.

Definition set_totalCommits (stats : StatsData) (v : JsVal) : StatsData :=
  {| name := name stats; totalPRs := totalPRs stats; totalCommits := v;
     totalIssues := totalIssues stats; totalStars := totalStars stats;
     contributedTo := contributedTo stats; rank := rank stats |}.

Definition set_totalIssues (stats : StatsData) (v : JsVal) : StatsData :=
  {| name := name stats; totalPRs := totalPRs stats; totalCommits := totalCommits stats;
     totalIssues := v; totalStars := totalStars stats;
     contributedTo := contributedTo stats; rank := rank stats |}.

Definition set_totalStars (stats : StatsData) (v : JsVal) : StatsData :=
  {| name := name stats; totalPRs := totalPRs stats; totalCommits := totalCommits stats;
     totalIssues := totalIssues stats; totalStars := v;
     contributedTo := contributedTo stats; rank := rank stats |}.

Definition set_contributedTo (stats : StatsData) (v : JsVal) : StatsData :=
  {| name := name stats; totalPRs := totalPRs stats; totalCommits := totalCommits stats;
     totalIssues := totalIssues stats; totalStars := totalStars stats;
     contributedTo := v; rank := rank stats |}.

Definition set_rank (stats : StatsData) (v : JsVal) : StatsData :=
  {| name := name stats; totalPRs := totalPRs stats; totalCommits := totalCommits stats;
     totalIssues := totalIssues stats; totalStars := totalStars stats;
     contributedTo := contributedTo stats; rank := v |}.

Definition initial_stats : StatsData :=
  {| name := JStr "";
     totalPRs := JNum 0;
     totalCommits := JNum 0;
     totalIssues := JNum 0;
     totalStars := JNum 0;
     contributedTo := JNum 0;
     rank := JObj [("level", JStr "C"); ("score", JNum 0)] |}.

(** ** [totalCommitsFetcher] *)

Section Program.
Context {collab : Collaborators} {sched : Scheduler}.

(** [retryer(f, variables)]: the request goes out now, the promise
    settles later. *)
Definition call_retryer (f : Fetcher) (variables : JsVal) : M Promise :=
  let* _ := emit (ECall f variables) in
  ret (retryer f variables).

Definition year_variables (username year : JsVal) : JsVal :=
  JObj [("login", username);
        ("from_time", JStr (js_to_string year ++ "-01-01T00:00:00.000Z")%string)].

(** The callback of [contributionYears.map] up to its [await]: one call
    per year, in the order of the array. *)
Fixpoint map_years (username : JsVal) (years : list JsVal) : M (list Promise) :=
  match years with
  | [] => ret []
  | year :: rest =>
      let* p := call_retryer fetchYearCommits (year_variables username year) in
      let* ps := map_years username rest in
      ret (p :: ps)
  end.

(** The callback after its [await], on the two captured counters. *)
Definition year_resume (totals : JsVal * JsVal) (settled : Promise)
  : Completion (JsVal * JsVal) :=
  let '(totalPublicCommits, totalPrivateCommits) := totals in
  let? res := settled in
  let? pub := js_path res ["data"; "data"; "user"; "contributionsCollection";
                           "totalCommitContributions"] in
  let totalPublicCommits := js_add totalPublicCommits pub in
  let? priv := js_path res ["data"; "data"; "user"; "contributionsCollection";
                            "restrictedContributionsCount"] in
  let totalPrivateCommits := js_add totalPrivateCommits priv in
  Normal (totalPublicCommits, totalPrivateCommits).

(** [Promise.all]: the callbacks resume in arrival order; the first one
    that throws rejects the whole, and what the later ones do to the
    counters is no longer read. *)
Fixpoint promise_all (arrived : list Promise) (totals : JsVal * JsVal)
  : Completion (JsVal * JsVal) :=
  match arrived with
  | [] => Normal totals
  | p :: rest =>
      let? totals' := year_resume totals p in
      promise_all rest totals'
  end.

Definition commit_aggregate (totalPublicCommits totalPrivateCommits : JsVal) : JsVal :=
  JObj [("totalPublicCommits", totalPublicCommits);
        ("totalPrivateCommits", totalPrivateCommits)].

Definition totalCommitsFetcher (username contributionYears : JsVal) : M JsVal :=
  if negb (githubUsernameRegex_test (js_to_string username)) then
    let* _ := emit (ELog (JStr "Invalid username")) in
    ret (JNum 0)
  else
    try_catch
      (let* years := lift (js_array contributionYears) in
       let* promises := map_years username years in
       let* totals := await (promise_all (arrive promises) (JNum 0, JNum 0)) in
       ret (commit_aggregate (fst totals) (snd totals)))
      (fun err =>
         let* _ := emit (ELogThrown err) in
         ret (commit_aggregate (JNum 0) (JNum 0))).

(** ** [fetchStats] *)

(** [nodes.reduce((prev, curr) => prev + curr.stargazers.totalCount, 0)]
    on the elements still to visit. *)
Fixpoint reduce_stars (nodes : list JsVal) (prev : JsVal) : Completion JsVal :=
  match nodes with
  | [] => Normal prev
  | curr :: rest =>
      let? count := js_path curr ["stargazers"; "totalCount"] in
      reduce_stars rest (js_add prev count)
  end.

Definition fetchStats (username : JsVal) (count_private include_all_commits : bool)
  : M StatsData :=
  if negb (js_truthy username) then throw (MissingParamError ["username"]) else
  let stats := initial_stats in
  let* pending := call_retryer fetcher (JObj [("login", username)]) in
  let* res := await pending in
  let* errors := lift (js_path res ["data"; "errors"]) in
  if js_truthy errors then
    let* payload := lift (js_path res ["data"; "errors"]) in
    let* _ := emit (ELogError payload) in
    let* first := lift (let? errs := js_path res ["data"; "errors"] in
                        js_get_index errs 0) in
    let* message := lift (js_get first "message") in
    throw (CustomError (js_or message (JStr "Could not fetch user")) USER_NOT_FOUND)
  else
  let* user := lift (js_path res ["data"; "data"; "user"]) in
  let* user_name := lift (js_get user "name") in
  let* shown := (if js_truthy user_name then ret user_name
                 else lift (js_get user "login")) in
  let stats := set_name stats shown in
  let* openCount := lift (js_path user ["openIssues"; "totalCount"]) in
  let* closedCount := lift (js_path user ["closedIssues"; "totalCount"]) in
  let stats := set_totalIssues stats (js_add openCount closedCount) in
  (* normal commits *)
  let* commits := lift (js_path user ["contributionsCollection";
                                      "totalCommitContributions"]) in
  let stats := set_totalCommits stats commits in
  let* privateCommits := lift (js_path user ["contributionsCollection";
                                             "restrictedContributionsCount"]) in
  (* if include_all_commits then just get that *)
  let* (stats, privateCommits) :=
    (if include_all_commits then
       let* years := lift (js_path user ["contributionsCollection";
                                         "contributionYears"]) in
       let* aggregate := totalCommitsFetcher username years in
       let* totalPublicCommits := lift (js_get aggregate "totalPublicCommits") in
       let* totalPrivateCommits := lift (js_get aggregate "totalPrivateCommits") in
       ret (set_totalCommits stats totalPublicCommits, totalPrivateCommits)
     else ret (stats, privateCommits)) in
  (* if count_private then add private commits to totalCommits so far *)
  let stats := (if count_private
                then set_totalCommits stats (js_add (totalCommits stats) privateCommits)
                else stats) in
  let* prCount := lift (js_path user ["pullRequests"; "totalCount"]) in
  let stats := set_totalPRs stats prCount in
  let* contributed := lift (js_path user ["repositoriesContributedTo"; "totalCount"]) in
  let stats := set_contributedTo stats contributed in
  let* nodes := lift (let? ns := js_path user ["repositories"; "nodes"] in
                      js_array ns) in
  let* stars := lift (reduce_stars nodes (JNum 0)) in
  let stats := set_totalStars stats stars in
  let* repoCount := lift (js_path user ["repositories"; "totalCount"]) in
  let* followerCount := lift (js_path user ["followers"; "totalCount"]) in
  let stats := set_rank stats (calculateRank
    {| Rank.totalCommits := totalCommits stats;
       Rank.totalRepos := repoCount;
       Rank.followers := followerCount;
       Rank.contributions := contributedTo stats;
       Rank.stargazers := totalStars stats;
       Rank.prs := totalPRs stats;
       Rank.issues := totalIssues stats |}) in
  ret stats.

End Program.

(** ** Concrete collaborators

    Instances on which the program can be run: a handle check following
    the pattern the [github-username-regex] package publishes
    ([/^[a-z\d](?:[a-z\d]|-(?=[a-z\d])){0,38}$/i]), and executors that
    answer like the upstream API. *)

Definition is_alnum (c : ascii) : bool :=
  let n := nat_of_ascii c in
  (((48 <=? n) && (n <=? 57)) || ((65 <=? n) && (n <=? 90))
   || ((97 <=? n) && (n <=? 122)))%nat.

Definition starts_alnum (s : string) : bool :=
  match s with
  | String c _ => is_alnum c
  | EmptyString => false
  end.

(** At most [budget] further characters, each alphanumeric or a hyphen
    followed by an alphanumeric. *)
Fixpoint handle_tail (budget : nat) (s : string) : bool :=
  match s with
  | EmptyString => true
  | String c rest =>
      match budget with
      | O => false
      | S budget' =>
          if is_alnum c then handle_tail budget' rest
          else if Ascii.eqb c "-" then starts_alnum rest && handle_tail budget' rest
          else false
      end
  end.

Definition handle_regex_test (s : string) : bool :=
  match s with
  | EmptyString => false
  | String c rest => is_alnum c && handle_tail 38 rest
  end.

Definition count_of (n : Z) : JsVal := JObj [("totalCount", JNum n)].

Definition repo_node (stars : Z) : JsVal := JObj [("stargazers", count_of stars)].

Definition envelope (payload : JsVal) : JsVal :=
  JObj [("data", JObj [("data", payload)])].

(** A primary response: 10 public and 5 restricted commits this year,
    two contribution years, 3 open and 7 closed issues, and a page of
    three repositories with 5, 0 and 12 stars. *)
Definition sample_user (years : list JsVal) : JsVal :=
  JObj [("name", JNull);
        ("login", JStr "octocat");
        ("contributionsCollection",
          JObj [("totalCommitContributions", JNum 10);
                ("restrictedContributionsCount", JNum 5);
                ("contributionYears", JArr years)]);
        ("repositoriesContributedTo", count_of 4);
        ("pullRequests", count_of 9);
        ("openIssues", count_of 3);
        ("closedIssues", count_of 7);
        ("followers", count_of 2);
        ("repositories",
          JObj [("totalCount", JNum 3);
                ("nodes", JArr [repo_node 5; repo_node 0; repo_node 12])])].

Definition year_payload (pub priv : Z) : JsVal :=
  envelope (JObj [("user",
    JObj [("contributionsCollection",
      JObj [("totalCommitContributions", JNum pub);
            ("restrictedContributionsCount", JNum priv)])])]).

(** Per-year answers: 60 + 15 commits from 2021, 40 + 5 from 2020, a
    rejected request for 2019, an error payload without data for
    anything else. *)
Definition sample_year (variables : JsVal) : Promise :=
  match js_get variables "from_time" with
  | Normal (JStr "2021-01-01T00:00:00.000Z") => Normal (year_payload 60 15)
  | Normal (JStr "2020-01-01T00:00:00.000Z") => Normal (year_payload 40 5)
  | Normal (JStr "2019-01-01T00:00:00.000Z") => Throw (Rejected (JStr "timeout"))
  | _ => Normal (JObj [("data",
           JObj [("errors", JArr [JObj [("message", JStr "Something went wrong")]])])])
  end.

Definition sample_rank (a : Rank.args) : JsVal :=
  JObj [("level", JStr "A+"); ("score", Rank.totalCommits a)].

Definition sample_collab : Collaborators :=
  {| retryer := fun f variables =>
       match f with
       | fetcher => Normal (envelope (JObj [("user", sample_user [JNum 2021; JNum 2020])]))
       | fetchYearCommits => sample_year variables
       end;
     githubUsernameRegex_test := handle_regex_test;
     calculateRank := sample_rank |}.

(** An executor whose primary answer is an error payload. *)
Definition not_found_collab : Collaborators :=
  {| retryer := fun _ _ =>
       Normal (JObj [("data",
         JObj [("errors",
           JArr [JObj [("type", JStr "NOT_FOUND");
                       ("message", JStr "Could not resolve to a User")]])])]);
     githubUsernameRegex_test := handle_regex_test;
     calculateRank := sample_rank |}.

(** ** Specification vocabulary *)

Definition commits_path : list string :=
  ["data"; "data"; "user"; "contributionsCollection"].

(** A per-period query fails when its promise is rejected (a network
    error, an exception of the executor) or when the answer does not hold
    the data path [res.data.data.user.contributionsCollection.*]. *)
Inductive period_fails : Promise -> Prop :=
| fails_rejected : forall e, period_fails (Throw e)
| fails_path_absent : forall res e,
    js_path res (commits_path ++ ["totalCommitContributions"]) = Throw e ->
    period_fails (Normal res).

(** The two counts of a period that did not fail. *)
Definition period_counts (p : Promise) : Completion (JsVal * JsVal) :=
  let? res := p in
  let? collection := js_path res commits_path in
  let? pub := js_get collection "totalCommitContributions" in
  let? priv := js_get collection "restrictedContributionsCount" in
  Normal (pub, priv).

(** An operand on which [+] adds numbers: anything but a string, an array
    or an object. *)
Definition js_numeric (v : JsVal) : bool :=
  match v with
  | JStr _ | JArr _ | JObj _ => false
  | _ => true
  end.

(** The upstream schema declares both counts as integers; all the merge
    needs is that neither makes [+] concatenate. *)
Definition numeric_period (p : Promise) : Prop :=
  forall pub priv, period_counts p = Normal (pub, priv) ->
    js_numeric pub = true /\ js_numeric priv = true.

(** The merge of the aggregator read on numbers: each period contributes
    [ToNumber] of its two counts, and the contributions are added. *)
Definition period_numbers (p : Promise) : option Z * option Z :=
  match period_counts p with
  | Normal (pub, priv) => (js_to_number pub, js_to_number priv)
  | Throw _ => (Some 0, Some 0)
  end.

Definition merge (a b : option Z * option Z) : option Z * option Z :=
  (num_add (fst a) (fst b), num_add (snd a) (snd b)).

Definition merged (ps : list Promise) : option Z * option Z :=
  fold_right (fun p acc => merge (period_numbers p) acc) (Some 0, Some 0) ps.

Definition totals_of (n : option Z * option Z) : JsVal * JsVal :=
  (js_of_number (fst n), js_of_number (snd n)).

Definition settles_with_counts (p : Promise) : bool :=
  match period_counts p with
  | Normal _ => true
  | Throw _ => false
  end.

Definition sum_Z (l : list Z) : Z := fold_right Z.add 0 l.

Definition is_primary_call (c : Fetcher * JsVal) : bool :=
  match fst c with
  | fetcher => true
  | fetchYearCommits => false
  end.

(** The request of year [year] for [username], as [totalCommitsFetcher]
    sends it. *)
Definition year_promise {collab : Collaborators} (username year : JsVal) : Promise :=
  retryer fetchYearCommits (year_variables username year).

Definition user_path : list string := ["data"; "data"; "user"].

Definition page_clause : string :=
  "repositories(first: 100, ownerAffiliations: OWNER, orderBy: {direction: DESC, field: STARGAZERS})".

(** The record a run returned, if it returned one. *)
Definition returned {A} (run : Completion A * Trace) : option A :=
  match fst run with
  | Normal a => Some a
  | Throw _ => None
  end.

Definition year_call (username year : JsVal) : Event :=
  ECall fetchYearCommits (year_variables username year).

Definition primary_variables (username : JsVal) : JsVal :=
  JObj [("login", username)].

(** ** Vocabulary for the further properties *)


Definition primary_request (username : JsVal) : Fetcher * JsVal :=
  (fetcher, primary_variables username).

(** The record [fetchStats] returns, in terms of the values it read from
    the primary answer and of the two commit counts [pub] and [priv] it
    settled on. *)
Definition profile {collab : Collaborators} (count_private : bool)
  (shown openCount closedCount pub priv prCount contributed stars
   repoCount followerCount : JsVal) : StatsData :=
  let total := if count_private then js_add pub priv else pub in
  {| name := shown;
     totalPRs := prCount;
     totalCommits := total;
     totalIssues := js_add openCount closedCount;
     totalStars := stars;
     contributedTo := contributed;
     rank := calculateRank
       {| Rank.totalCommits := total;
          Rank.totalRepos := repoCount;
          Rank.followers := followerCount;
          Rank.contributions := contributed;
          Rank.stargazers := stars;
          Rank.prs := prCount;
          Rank.issues := js_add openCount closedCount |} |}.

(** What [fetchStats] reads off the [user] object of the primary answer,
    in the order it reads it; the contribution years, read only with
    [include_all_commits], are left to [commit_source]. *)
Record UserReads : Type := {
  seen_name : JsVal;
  seen_open : JsVal;
  seen_closed : JsVal;
  seen_commits : JsVal;
  seen_private : JsVal;
  seen_prs : JsVal;
  seen_contributed : JsVal;
  seen_nodes : list JsVal;
  seen_stars : JsVal;
  seen_repos : JsVal;
  seen_followers : JsVal
}.

Definition read_user (user : JsVal) : Completion UserReads :=
  let? user_name := js_get user "name" in
  let? shown := (if js_truthy user_name then Normal user_name
                 else js_get user "login") in
  let? openCount := js_path user ["openIssues"; "totalCount"] in
  let? closedCount := js_path user ["closedIssues"; "totalCount"] in
  let? commits := js_path user ["contributionsCollection";
                                "totalCommitContributions"] in
  let? privateCommits := js_path user ["contributionsCollection";
                                       "restrictedContributionsCount"] in
  let? prCount := js_path user ["pullRequests"; "totalCount"] in
  let? contributed := js_path user ["repositoriesContributedTo"; "totalCount"] in
  let? nodes := (let? ns := js_path user ["repositories"; "nodes"] in js_array ns) in
  let? stars := reduce_stars nodes (JNum 0) in
  let? repoCount := js_path user ["repositories"; "totalCount"] in
  let? followerCount := js_path user ["followers"; "totalCount"] in
  Normal {| seen_name := shown; seen_open := openCount; seen_closed := closedCount;
            seen_commits := commits; seen_private := privateCommits;
            seen_prs := prCount; seen_contributed := contributed;
            seen_nodes := nodes; seen_stars := stars;
            seen_repos := repoCount; seen_followers := followerCount |}.

(** Where the two commit counts of a run come from, and the events that
    getting them adds: the primary answer, or the aggregator's result read
    field by field. *)
Definition commit_source {collab : Collaborators} {sched : Scheduler}
  (username user : JsVal) (include_all_commits : bool) (r : UserReads)
  (pub priv : JsVal) (events : Trace) : Prop :=
  if include_all_commits
  then exists years aggregate,
      js_path user ["contributionsCollection"; "contributionYears"] = Normal years /\
      totalCommitsFetcher username years [] = (Normal aggregate, events) /\
      js_get aggregate "totalPublicCommits" = Normal pub /\
      js_get aggregate "totalPrivateCommits" = Normal priv
  else pub = seen_commits r /\ priv = seen_private r /\ events = [].


(** A run that threw. *)
Definition thrown {A} (run : Completion A * Trace) : option Thrown :=
  match fst run with
  | Normal _ => None
  | Throw e => Some e
  end.

(** * Proofs *)

(** ** Checks of the JavaScript fragment *)

Example to_string_year : js_to_string (JNum 2020) = "2020".
Proof. reflexivity. Qed.

Example to_string_array :
  js_to_string (JArr [JNum 1; JNull; JArr [JStr "a"; JUndefined]; JNum (-3)]) = "1,,a,,-3".
Proof. reflexivity. Qed.

Example add_numbers : js_add (JNum 10) (JNum 5) = JNum 15.
Proof. reflexivity. Qed.

Example add_undefined : js_add JUndefined JUndefined = JNaN.
Proof. reflexivity. Qed.

Example add_null : js_add (JNum 4) JNull = JNum 4.
Proof. reflexivity. Qed.

Example add_string : js_add (JNum 0) (JStr "7") = JStr "07".
Proof. reflexivity. Qed.

Example add_empty_array : js_add (JNum 0) (JArr []) = JStr "0".
Proof. reflexivity. Qed.

Example get_of_number : js_get (JNum 0) "totalPublicCommits" = Normal JUndefined.
Proof. reflexivity. Qed.

Example get_of_null : js_get JNull "data" = Throw TypeError.
Proof. reflexivity. Qed.

Example empty_array_is_truthy : js_truthy (JArr []) = true.
Proof. reflexivity. Qed.

Example year_variables_2020 :
  year_variables (JStr "octocat") (JNum 2020) =
  JObj [("login", JStr "octocat"); ("from_time", JStr "2020-01-01T00:00:00.000Z")].
Proof. reflexivity. Qed.

Example handles :
  map handle_regex_test ["octocat"; "a-b"; "a--b"; "-a"; "a-"; ""; "a_b"] =
  [true; true; false; false; false; false; false].
Proof. reflexivity. Qed.

Example sample_run :
  fst (@fetchStats sample_collab in_issue_order (JStr "octocat") true true []) =
  Normal {| name := JStr "octocat";
            totalPRs := JNum 9;
            totalCommits := JNum 120;
            totalIssues := JNum 10;
            totalStars := JNum 17;
            contributedTo := JNum 4;
            rank := JObj [("level", JStr "A+"); ("score", JNum 120)] |}.
Proof. reflexivity. Qed.

(** Counts that are strings make [+] concatenate, and concatenation
    depends on the arrival order: the merge is only a sum on operands that
    add numerically. *)
Example string_counts_concatenate :
  promise_all [Normal (envelope (JObj [("user", JObj [("contributionsCollection",
                 JObj [("totalCommitContributions", JStr "1");
                       ("restrictedContributionsCount", JNum 0)])])]));
               Normal (year_payload 2 0)] (JNum 0, JNum 0) =
    Normal (JStr "012", JNum 0) /\
  promise_all [Normal (year_payload 2 0);
               Normal (envelope (JObj [("user", JObj [("contributionsCollection",
                 JObj [("totalCommitContributions", JStr "1");
                       ("restrictedContributionsCount", JNum 0)])])]))]
              (JNum 0, JNum 0) =
    Normal (JStr "21", JNum 0).
Proof. split; reflexivity. Qed.

(** ** The monad *)

Lemma bind_inv {A B} (m : M A) (k : A -> M B) t b t' :
  bind m k t = (Normal b, t') ->
  exists a t1, m t = (Normal a, t1) /\ k a t1 = (Normal b, t').
Proof.
  unfold bind. destruct (m t) as [[a|e] t1]; intros H.
  - exists a, t1. split; [reflexivity | exact H].
  - discriminate H.
Qed.

Lemma lift_inv {A} (c : Completion A) t a t1 :
  lift c t = (Normal a, t1) -> c = Normal a /\ t1 = t.
Proof.
  unfold lift. intros H. inversion H. subst. split; reflexivity.
Qed.

Lemma cbind_inv {A B} (c : Completion A) (k : A -> Completion B) b :
  cbind c k = Normal b -> exists a, c = Normal a /\ k a = Normal b.
Proof.
  destruct c as [a|e]; simpl; intros H; [exists a; auto | discriminate H].
Qed.

Lemma call_retryer_run {collab : Collaborators} f variables t :
  call_retryer f variables t = (Normal (retryer f variables), t ++ [ECall f variables]).
Proof. reflexivity. Qed.

(** Peels the first bind of a hypothesis saying that a run ended
    normally: [a] names the value bound, [Ha] the fact about it. *)
Ltac peel_bind H a Ha :=
  let t1 := fresh "tr" in
  apply bind_inv in H; destruct H as (a & t1 & Ha & H);
  lazymatch type of Ha with
  | lift _ _ = _ => apply lift_inv in Ha; destruct Ha as [Ha ->]
  | await _ _ = _ => apply lift_inv in Ha; destruct Ha as [Ha ->]
  | call_retryer _ _ _ = _ =>
      rewrite call_retryer_run in Ha; inversion Ha; subst a t1; clear Ha
  | _ => idtac
  end.

Tactic Notation "peel" hyp(H) "as" ident(a) ident(Ha) := peel_bind H a Ha.

(** ** Arithmetic of [+] on numeric operands *)

Lemma num_add_comm a b : num_add a b = num_add b a.
Proof. destruct a, b; simpl; try reflexivity. f_equal. lia. Qed.

Lemma num_add_assoc a b c : num_add (num_add a b) c = num_add a (num_add b c).
Proof. destruct a, b, c; simpl; try reflexivity. f_equal. lia. Qed.

Lemma js_add_numeric n v :
  js_numeric v = true ->
  js_add (js_of_number n) v = js_of_number (num_add n (js_to_number v)).
Proof.
  destruct n as [z|]; destruct v as [| |[|]|z'| |s|l|o]; simpl;
    intros H; try discriminate H; reflexivity.
Qed.

Lemma js_add_nums a b : js_add (JNum a) (JNum b) = JNum (a + b).
Proof. reflexivity. Qed.

(** ** Property paths *)

Lemma js_path_app v ks ks' :
  js_path v (ks ++ ks') = cbind (js_path v ks) (fun w => js_path w ks').
Proof.
  revert v. induction ks as [|k ks IH]; intros v; simpl.
  - reflexivity.
  - destruct (js_get v k) as [w|e]; simpl; [apply IH | reflexivity].
Qed.

Lemma js_path_one v k : js_path v [k] = js_get v k.
Proof. simpl. destruct (js_get v k); reflexivity. Qed.

(** ** The aggregator *)

Section Aggregator.
Context {collab : Collaborators} {sched : Scheduler}.

Lemma map_years_run username years t :
  map_years username years t =
  (Normal (map (year_promise username) years),
   t ++ map (year_call username) years).
Proof.
  revert t. induction years as [|y ys IH]; intros t; simpl.
  - unfold ret. now rewrite app_nil_r.
  - unfold bind, call_retryer, emit, ret at 1. simpl.
    unfold bind in IH. rewrite IH. unfold ret.
    rewrite <- app_assoc. reflexivity.
Qed.

Lemma year_resume_counts a b p :
  year_resume (a, b) p =
  (let? counts := period_counts p in
   Normal (js_add a (fst counts), js_add b (snd counts))).
Proof.
  unfold year_resume, period_counts. destruct p as [res|e]; simpl; [|reflexivity].
  destruct (js_get res "data") as [d1|]; simpl; [|reflexivity].
  destruct (js_get d1 "data") as [d2|]; simpl; [|reflexivity].
  destruct (js_get d2 "user") as [u|]; simpl; [|reflexivity].
  destruct (js_get u "contributionsCollection") as [c|]; simpl; [|reflexivity].
  destruct (js_get c "totalCommitContributions") as [x|]; simpl; [|reflexivity].
  destruct (js_get c "restrictedContributionsCount") as [y|]; simpl; reflexivity.
Qed.

Lemma period_fails_counts p :
  period_fails p -> exists e, period_counts p = Throw e.
Proof.
  intros [e | res e H].
  - exists e. reflexivity.
  - unfold period_counts. rewrite js_path_app in H. cbn [cbind].
    destruct (js_path res commits_path) as [c|e']; cbn [cbind js_path] in H |- *.
    + destruct (js_get c "totalCommitContributions"); [discriminate H|].
      cbn [cbind]. eauto.
    + eauto.
Qed.

Lemma promise_all_fails ps :
  Exists period_fails ps ->
  forall totals, exists e, promise_all ps totals = Throw e.
Proof.
  induction 1 as [p ps Hp | p ps _ IH]; intros [a b]; cbn [promise_all];
    rewrite year_resume_counts.
  - destruct (period_fails_counts p Hp) as [e ->]. cbn [cbind]. eauto.
  - destruct (period_counts p) as [c|e]; cbn [cbind]; [apply IH | eauto].
Qed.

Lemma totalCommitsFetcher_invalid username contributionYears t :
  githubUsernameRegex_test (js_to_string username) = false ->
  totalCommitsFetcher username contributionYears t =
  (Normal (JNum 0), t ++ [ELog (JStr "Invalid username")]).
Proof.
  intros H. unfold totalCommitsFetcher. rewrite H. reflexivity.
Qed.

Lemma totalCommitsFetcher_run username years t :
  githubUsernameRegex_test (js_to_string username) = true ->
  totalCommitsFetcher username (JArr years) t =
  match promise_all (arrive (map (year_promise username) years)) (JNum 0, JNum 0) with
  | Normal totals =>
      (Normal (commit_aggregate (fst totals) (snd totals)),
       t ++ map (year_call username) years)
  | Throw e =>
      (Normal (commit_aggregate (JNum 0) (JNum 0)),
       (t ++ map (year_call username) years) ++ [ELogThrown e])
  end.
Proof.
  intros H. unfold totalCommitsFetcher. rewrite H. simpl.
  unfold try_catch, bind at 1. simpl.
  unfold bind at 1. rewrite map_years_run.
  unfold bind, await, lift, ret.
  destruct (promise_all _ _) as [totals|e]; reflexivity.
Qed.

Lemma totalCommitsFetcher_not_array username contributionYears t :
  githubUsernameRegex_test (js_to_string username) = true ->
  js_array contributionYears = Throw TypeError ->
  totalCommitsFetcher username contributionYears t =
  (Normal (commit_aggregate (JNum 0) (JNum 0)), t ++ [ELogThrown TypeError]).
Proof.
  intros H Ha. unfold totalCommitsFetcher. rewrite H. simpl.
  unfold try_catch, bind at 1. unfold lift. rewrite Ha. reflexivity.
Qed.

Lemma js_array_cases v :
  (exists l, v = JArr l) \/ js_array v = Throw TypeError.
Proof. destruct v; simpl; eauto. Qed.

End Aggregator.

(** ** Order independence of the merge *)

Section Merge.
Context {collab : Collaborators}.

Lemma merge_comm a b : merge a b = merge b a.
Proof. unfold merge. now rewrite (num_add_comm (fst a)), (num_add_comm (snd a)). Qed.

Lemma merge_assoc a b c : merge (merge a b) c = merge a (merge b c).
Proof. unfold merge. simpl. now rewrite !num_add_assoc. Qed.

Lemma merged_perm ps ps' : Permutation ps ps' -> merged ps = merged ps'.
Proof.
  induction 1 as [| p l l' _ IH | p q l | l l' l'' _ IH1 _ IH2]; simpl.
  - reflexivity.
  - now rewrite IH.
  - rewrite <- !merge_assoc. now rewrite (merge_comm (period_numbers q)).
  - now rewrite IH1.
Qed.

Lemma settles_perm ps ps' :
  Permutation ps ps' ->
  forallb settles_with_counts ps = forallb settles_with_counts ps'.
Proof.
  induction 1 as [| p l l' _ IH | p q l | l l' l'' _ IH1 _ IH2]; simpl.
  - reflexivity.
  - now rewrite IH.
  - destruct (settles_with_counts p), (settles_with_counts q); reflexivity.
  - now rewrite IH1.
Qed.

Lemma promise_all_throws ps :
  forallb settles_with_counts ps = false ->
  forall totals, exists e, promise_all ps totals = Throw e.
Proof.
  induction ps as [|p ps IH]; cbn [forallb promise_all]; [discriminate|].
  intros H [a b]. rewrite year_resume_counts. unfold settles_with_counts in H at 1.
  destruct (period_counts p) as [c|e]; cbn [cbind]; [|eauto].
  simpl in H. now apply IH.
Qed.

Lemma promise_all_sums ps :
  Forall numeric_period ps ->
  forallb settles_with_counts ps = true ->
  forall n, promise_all ps (totals_of n) = Normal (totals_of (merge n (merged ps))).
Proof.
  induction 1 as [|p ps Hp _ IH]; cbn [forallb promise_all merged fold_right];
    intros Hs [n m].
  - unfold merge, totals_of. simpl. destruct n, m; simpl; now rewrite ?Z.add_0_r.
  - apply andb_prop in Hs. destruct Hs as [Hs1 Hs2].
    unfold totals_of at 1. cbn [fst snd]. rewrite year_resume_counts.
    unfold settles_with_counts in Hs1. unfold period_numbers.
    unfold numeric_period in Hp.
    destruct (period_counts p) as [[pub priv]|e]; [|discriminate Hs1].
    destruct (Hp pub priv eq_refl) as [Hpub Hpriv].
    cbn [cbind fst snd]. rewrite (js_add_numeric n pub Hpub), (js_add_numeric m priv Hpriv).
    change (js_of_number (num_add n (js_to_number pub)),
            js_of_number (num_add m (js_to_number priv)))
      with (totals_of (merge (n, m) (js_to_number pub, js_to_number priv))).
    rewrite (IH Hs2). now rewrite merge_assoc.
Qed.

End Merge.

(** ** Claims about the aggregator *)

(** C1 (evaluation at a malformed handle).  For the handle [-octocat],
    which the handle check refuses, [totalCommitsFetcher] logs the refusal,
    issues no network call and returns the bare number [0]: the value is
    not the zeroed aggregate [{totalPublicCommits: 0, totalPrivateCommits: 0}]
    that the catch branch of the same function returns. *)
Theorem malformed_handle_returns_bare_zero :
  handle_regex_test "-octocat" = false /\
  @totalCommitsFetcher sample_collab in_issue_order
    (JStr "-octocat") (JArr [JNum 2021; JNum 2020]) [] =
    (Normal (JNum 0), [ELog (JStr "Invalid username")]) /\
  JNum 0 <> commit_aggregate (JNum 0) (JNum 0) /\
  js_get (JNum 0) "totalPublicCommits" = Normal JUndefined /\
  network_calls [ELog (JStr "Invalid username")] = [].
Proof.
  repeat split; try reflexivity. discriminate.
Qed.

(** C9.  For a well-formed handle and an empty list of contribution
    years, [totalCommitsFetcher] returns
    [{totalPublicCommits: 0, totalPrivateCommits: 0}] and adds no event to
    the trace: no per-period request is issued. *)
Theorem no_periods_zero_aggregate
  (collab : Collaborators) (sched : Scheduler) (username : JsVal) (t : Trace) :
  githubUsernameRegex_test (js_to_string username) = true ->
  totalCommitsFetcher username (JArr []) t =
    (Normal (commit_aggregate (JNum 0) (JNum 0)), t) /\
  network_calls (snd (totalCommitsFetcher username (JArr []) [])) = [].
Proof.
  intros H. rewrite !totalCommitsFetcher_run by exact H.
  cbn [map]. pose proof (arrive_perm []) as Hp.
  apply Permutation_nil in Hp. rewrite Hp. cbn [promise_all fst snd].
  rewrite app_nil_r. split; reflexivity.
Qed.

Lemma no_periods_zero_aggregate_witness :
  @githubUsernameRegex_test sample_collab (js_to_string (JStr "octocat")) = true /\
  @totalCommitsFetcher sample_collab in_reverse_order (JStr "octocat") (JArr []) [] =
    (Normal (commit_aggregate (JNum 0) (JNum 0)), []).
Proof.
  split; [reflexivity|].
  apply (no_periods_zero_aggregate sample_collab in_reverse_order (JStr "octocat") []).
  reflexivity.
Defined.

(** C3.  When the handle is well formed and at least one of the per-period
    queries fails (its promise is rejected, or its answer lacks the data
    path), [totalCommitsFetcher] returns exactly
    [{totalPublicCommits: 0, totalPrivateCommits: 0}], whatever the other
    periods report and in whatever order the answers arrive. *)
Theorem any_period_failure_zeroes_aggregate
  (collab : Collaborators) (sched : Scheduler)
  (username : JsVal) (years : list JsVal) (t : Trace) :
  githubUsernameRegex_test (js_to_string username) = true ->
  Exists (fun year => period_fails (year_promise username year)) years ->
  fst (totalCommitsFetcher username (JArr years) t) =
    Normal (commit_aggregate (JNum 0) (JNum 0)).
Proof.
  intros Hu Hfail. rewrite totalCommitsFetcher_run by exact Hu.
  assert (Hex : Exists period_fails (arrive (map (year_promise username) years))).
  { apply Exists_exists in Hfail. destruct Hfail as (y & Hin & Hy).
    apply Exists_exists. exists (year_promise username y). split; [|exact Hy].
    apply (Permutation_in _ (arrive_perm _)). now apply in_map. }
  destruct (promise_all_fails _ Hex (JNum 0, JNum 0)) as [e ->].
  reflexivity.
Qed.

Lemma any_period_failure_zeroes_aggregate_witness :
  fst (@totalCommitsFetcher sample_collab in_reverse_order (JStr "octocat")
         (JArr [JNum 2021; JNum 2019; JNum 2020]) []) =
    Normal (commit_aggregate (JNum 0) (JNum 0)).
Proof.
  apply (any_period_failure_zeroes_aggregate sample_collab in_reverse_order).
  - reflexivity.
  - apply Exists_cons_tl, Exists_cons_hd. vm_compute. apply fails_rejected.
Defined.

(** C6.  For every handle, every list of contribution years whose answers
    carry counts that [+] adds as numbers, every rearrangement of that
    list and every two arrival orders of the answers, [totalCommitsFetcher]
    returns the same value: the same two sums. *)
Theorem aggregate_independent_of_order
  (collab : Collaborators) (sched sched' : Scheduler)
  (username : JsVal) (years years' : list JsVal) (t t' : Trace) :
  Permutation years years' ->
  Forall (fun year => numeric_period (year_promise username year)) years ->
  fst (@totalCommitsFetcher collab sched username (JArr years) t) =
  fst (@totalCommitsFetcher collab sched' username (JArr years') t').
Proof.
  intros Hperm Hnum.
  destruct (githubUsernameRegex_test (js_to_string username)) eqn:Hu.
  2:{ now rewrite !totalCommitsFetcher_invalid by exact Hu. }
  rewrite !totalCommitsFetcher_run by exact Hu.
  set (ps := map (year_promise username) years).
  set (ps' := map (year_promise username) years').
  assert (Hpp : Permutation (@arrive sched ps) (@arrive sched' ps')).
  { eapply Permutation_trans; [symmetry; apply arrive_perm|].
    eapply Permutation_trans; [|apply arrive_perm].
    now apply Permutation_map. }
  assert (Hn : Forall numeric_period (@arrive sched ps)).
  { eapply Permutation_Forall; [apply arrive_perm|].
    unfold ps. apply Forall_map. exact Hnum. }
  assert (Hn' : Forall numeric_period (@arrive sched' ps')).
  { eapply Permutation_Forall; [exact Hpp | exact Hn]. }
  pose proof (settles_perm _ _ Hpp) as Hs.
  destruct (forallb settles_with_counts (@arrive sched ps)) eqn:Hall.
  - symmetry in Hs.
    change (JNum 0, JNum 0) with (totals_of (Some 0, Some 0)).
    rewrite (promise_all_sums _ Hn Hall), (promise_all_sums _ Hn' Hs).
    now rewrite (merged_perm _ _ Hpp).
  - symmetry in Hs.
    destruct (promise_all_throws _ Hall (JNum 0, JNum 0)) as [e ->].
    destruct (promise_all_throws _ Hs (JNum 0, JNum 0)) as [e' ->].
    reflexivity.
Qed.

Lemma aggregate_independent_of_order_witness :
  fst (@totalCommitsFetcher sample_collab in_issue_order (JStr "octocat")
         (JArr [JNum 2021; JNum 2020]) []) =
  fst (@totalCommitsFetcher sample_collab in_reverse_order (JStr "octocat")
         (JArr [JNum 2020; JNum 2021]) []).
Proof.
  apply (aggregate_independent_of_order sample_collab in_issue_order in_reverse_order).
  - apply perm_swap.
  - apply Forall_cons; [|apply Forall_cons; [|apply Forall_nil]];
      intros pub priv H; vm_compute in H; inversion H; subst; split; reflexivity.
Defined.

(** ** Runs of [fetchStats] *)

Section Assembler.
Context {collab : Collaborators} {sched : Scheduler}.

Lemma network_calls_app t1 t2 :
  network_calls (t1 ++ t2) = network_calls t1 ++ network_calls t2.
Proof.
  induction t1 as [|ev t1 IH]; simpl; [reflexivity|].
  destruct ev; simpl; now rewrite IH.
Qed.

Lemma network_calls_years username years :
  network_calls (map (year_call username) years) =
  map (fun year => (fetchYearCommits, year_variables username year)) years.
Proof.
  induction years as [|y ys IH]; simpl; [reflexivity | now rewrite IH].
Qed.

Lemma no_primary_among_years username years :
  filter is_primary_call
    (map (fun year => (fetchYearCommits, year_variables username year)) years) = [].
Proof. induction years as [|y ys IH]; simpl; auto. Qed.

(** The aggregator only appends to the trace, and what it returns and
    appends does not depend on the trace it starts from. *)
Lemma totalCommitsFetcher_trace username contributionYears t :
  totalCommitsFetcher username contributionYears t =
  (fst (totalCommitsFetcher username contributionYears []),
   t ++ snd (totalCommitsFetcher username contributionYears [])).
Proof.
  destruct (githubUsernameRegex_test (js_to_string username)) eqn:Hu.
  - destruct (js_array_cases contributionYears) as [[l ->] | Ha].
    + rewrite !totalCommitsFetcher_run by exact Hu.
      destruct (promise_all _ _); cbn [fst snd app];
        now rewrite ?app_assoc.
    + now rewrite !totalCommitsFetcher_not_array by assumption.
  - now rewrite !totalCommitsFetcher_invalid by exact Hu.
Qed.

Lemma totalCommitsFetcher_no_primary_call username contributionYears :
  filter is_primary_call
    (network_calls (snd (totalCommitsFetcher username contributionYears []))) = [].
Proof.
  destruct (githubUsernameRegex_test (js_to_string username)) eqn:Hu.
  - destruct (js_array_cases contributionYears) as [[l ->] | Ha].
    + rewrite totalCommitsFetcher_run by exact Hu.
      destruct (promise_all _ _); cbn [snd app];
        rewrite ?network_calls_app, network_calls_years, ?filter_app,
          no_primary_among_years; reflexivity.
    + now rewrite totalCommitsFetcher_not_array by assumption.
  - now rewrite totalCommitsFetcher_invalid by exact Hu.
Qed.

(** What a run of [fetchStats] that returns a record went through. *)
Lemma fetchStats_inv username count_private include_all_commits t stats t' :
  fetchStats username count_private include_all_commits t = (Normal stats, t') ->
  exists res user openCount closedCount commits privateCommits pub priv nodes events,
    js_truthy username = true /\
    retryer fetcher (primary_variables username) = Normal res /\
    js_path res ["data"; "data"; "user"] = Normal user /\
    js_path user ["openIssues"; "totalCount"] = Normal openCount /\
    js_path user ["closedIssues"; "totalCount"] = Normal closedCount /\
    js_path user ["contributionsCollection"; "totalCommitContributions"] =
      Normal commits /\
    js_path user ["contributionsCollection"; "restrictedContributionsCount"] =
      Normal privateCommits /\
    (if include_all_commits
     then exists years aggregate,
         js_path user ["contributionsCollection"; "contributionYears"] =
           Normal years /\
         totalCommitsFetcher username years [] = (Normal aggregate, events) /\
         js_get aggregate "totalPublicCommits" = Normal pub /\
         js_get aggregate "totalPrivateCommits" = Normal priv
     else pub = commits /\ priv = privateCommits /\ events = []) /\
    js_path user ["repositories"; "nodes"] = Normal (JArr nodes) /\
    reduce_stars nodes (JNum 0) = Normal (totalStars stats) /\
    totalIssues stats = js_add openCount closedCount /\
    totalCommits stats = (if count_private then js_add pub priv else pub) /\
    t' = (t ++ [ECall fetcher (primary_variables username)]) ++ events.
Proof.
  intros H. unfold fetchStats in H.
  destruct (js_truthy username) eqn:Hu; cbn [negb] in H; [|discriminate H].
  peel H as pending Hpending. peel H as res Hres. peel H as errors Herrors.
  destruct (js_truthy errors).
  { peel H as x1 Hx1. peel H as x2 Hx2. peel H as x3 Hx3. peel H as x4 Hx4.
    discriminate H. }
  peel H as user Huser. peel H as user_name Hname. peel H as shown Hshown.
  assert (tr = t ++ [ECall fetcher (JObj [("login", username)])]) as ->.
  { destruct (js_truthy user_name).
    - unfold ret in Hshown. now inversion Hshown.
    - now apply lift_inv in Hshown. }
  clear Hshown.
  peel H as openCount Hopen. peel H as closedCount Hclosed.
  peel H as commits Hcommits. peel H as privateCommits Hprivate.
  peel H as chosen Hchosen. destruct chosen as [stats1 privateCommits1].
  peel H as prCount Hprs. peel H as contributed Hcontributed.
  peel H as nodes Hnodes.
  apply cbind_inv in Hnodes. destruct Hnodes as (ns & Hns & Harr).
  destruct ns; try discriminate Harr. simpl in Harr. inversion Harr; subst elems.
  clear Harr.
  peel H as stars Hstars. peel H as repoCount Hrepos.
  peel H as followerCount Hfollowers.
  unfold ret in H. inversion H; subst stats t'; clear H.
  cbn [totalStars set_rank set_totalStars totalIssues totalCommits
       set_contributedTo set_totalPRs].
  destruct include_all_commits.
  - peel Hchosen as years Hyears. peel Hchosen as aggregate Haggregate.
    peel Hchosen as pub Hpub. peel Hchosen as priv Hpriv.
    unfold ret in Hchosen. inversion Hchosen; subst stats1 privateCommits1 tr0.
    clear Hchosen.
    rewrite totalCommitsFetcher_trace in Haggregate. inversion Haggregate as [[Hagg Htr]].
    exists res, user, openCount, closedCount, commits, privateCommits, pub, priv,
      nodes, (snd (totalCommitsFetcher username years [])).
    repeat (split; [first [assumption | reflexivity]|]).
    split.
    { exists years, aggregate. split; [assumption|]. split; [|split; assumption].
      rewrite <- Hagg. now destruct (totalCommitsFetcher username years []). }
    repeat (split; [first [assumption | reflexivity]|]).
    split; [|split; [|reflexivity]]; destruct count_private; reflexivity.
  - unfold ret in Hchosen. inversion Hchosen; subst stats1 privateCommits1 tr.
    exists res, user, openCount, closedCount, commits, privateCommits, commits,
      privateCommits, nodes, [].
    repeat (split; [first [assumption | reflexivity]|]).
    split; [auto|].
    repeat (split; [first [assumption | reflexivity]|]).
    split; [|split; [|now rewrite app_nil_r]]; destruct count_private; reflexivity.
Qed.

Lemma under_user res user ks :
  js_path res user_path = Normal user ->
  js_path res (user_path ++ ks) = js_path user ks.
Proof. intros H. now rewrite js_path_app, H. Qed.

Lemma reduce_stars_sum nodes counts :
  Forall2 (fun node count =>
             js_path node ["stargazers"; "totalCount"] = Normal (JNum count))
          nodes counts ->
  forall z, reduce_stars nodes (JNum z) = Normal (JNum (z + sum_Z counts)).
Proof.
  induction 1 as [|node count nodes counts Hnode _ IH]; intros z;
    cbn [reduce_stars sum_Z fold_right].
  - now rewrite Z.add_0_r.
  - rewrite Hnode. cbn [cbind]. rewrite js_add_nums, IH.
    fold (sum_Z counts). now rewrite Z.add_assoc.
Qed.

End Assembler.

(** ** Claims about the assembler *)

(** C5.  When the account identifier is absent ([undefined]) or the empty
    string, [fetchStats] throws [MissingParamError(["username"])] and
    leaves the trace as it found it: no network call is issued. *)
Theorem missing_username_fails_fast
  (collab : Collaborators) (sched : Scheduler)
  (username : JsVal) (count_private include_all_commits : bool) (t : Trace) :
  username = JUndefined \/ username = JStr "" ->
  fetchStats username count_private include_all_commits t =
    (Throw (MissingParamError ["username"]), t).
Proof.
  intros [-> | ->]; reflexivity.
Qed.

Lemma missing_username_fails_fast_witness :
  @fetchStats sample_collab in_issue_order (JStr "") true true [] =
    (Throw (MissingParamError ["username"]), []).
Proof.
  apply (missing_username_fails_fast sample_collab in_issue_order (JStr "") true true []).
  right. reflexivity.
Defined.

(** C4.  When the answer to the primary query carries a non-empty [errors]
    array whose first descriptor can be read, [fetchStats] throws a
    [CustomError] of class [USER_NOT_FOUND] whose message is the first
    descriptor's [message], or ["Could not fetch user"] when that message
    is falsy.  No record is returned, and the trace gains the primary call
    and the error log only: nothing of the aggregator runs, whatever the
    flags. *)
Theorem upstream_errors_abort
  (collab : Collaborators) (sched : Scheduler)
  (username : JsVal) (count_private include_all_commits : bool) (t : Trace)
  (res first : JsVal) (rest : list JsVal) (message : JsVal) :
  js_truthy username = true ->
  retryer fetcher (primary_variables username) = Normal res ->
  js_path res ["data"; "errors"] = Normal (JArr (first :: rest)) ->
  js_get first "message" = Normal message ->
  fetchStats username count_private include_all_commits t =
    (Throw (CustomError
              (if js_truthy message then message else JStr "Could not fetch user")
              USER_NOT_FOUND),
     t ++ [ECall fetcher (primary_variables username);
           ELogError (JArr (first :: rest))]).
Proof.
  intros Hu Hres Herr Hmsg. unfold fetchStats. rewrite Hu. cbn [negb].
  change (JObj [("login", username)]) with (primary_variables username).
  cbv [bind call_retryer await lift emit ret throw].
  rewrite Hres. cbv beta iota. rewrite !Herr.
  cbn [js_truthy cbind js_get_index nth]. rewrite Hmsg.
  unfold js_or. rewrite <- app_assoc. reflexivity.
Qed.

Lemma upstream_errors_abort_witness :
  @fetchStats not_found_collab in_issue_order (JStr "octocat") true true [] =
    (Throw (CustomError (JStr "Could not resolve to a User") USER_NOT_FOUND),
     [ECall fetcher (JObj [("login", JStr "octocat")]);
      ELogError (JArr [JObj [("type", JStr "NOT_FOUND");
                             ("message", JStr "Could not resolve to a User")]])]).
Proof.
  apply (upstream_errors_abort not_found_collab in_issue_order (JStr "octocat")
           true true []
           (JObj [("data",
              JObj [("errors",
                JArr [JObj [("type", JStr "NOT_FOUND");
                            ("message", JStr "Could not resolve to a User")]])])])
           (JObj [("type", JStr "NOT_FOUND");
                  ("message", JStr "Could not resolve to a User")])
           [] (JStr "Could not resolve to a User"));
    reflexivity.
Defined.

(** C2.  In a run of [fetchStats] that returns a record, with the primary
    query reporting [P] public and [R] restricted commits: without
    [include_all_commits], [totalCommits] is [P], or [P + R] when
    [count_private] is set; with [include_all_commits] and an aggregator
    result whose fields are [A] and [B], [totalCommits] is [A], or [A + B]
    when [count_private] is set, so that the aggregate replaces [P] and [B]
    replaces [R]. *)
Theorem commit_total_by_flags
  (collab : Collaborators) (sched : Scheduler)
  (username : JsVal) (count_private include_all_commits : bool)
  (t t' : Trace) (stats : StatsData) (res : JsVal) (P R : Z) :
  fetchStats username count_private include_all_commits t = (Normal stats, t') ->
  retryer fetcher (primary_variables username) = Normal res ->
  js_path res (user_path ++ ["contributionsCollection"; "totalCommitContributions"]) =
    Normal (JNum P) ->
  js_path res (user_path ++ ["contributionsCollection"; "restrictedContributionsCount"]) =
    Normal (JNum R) ->
  match include_all_commits, count_private with
  | false, false => totalCommits stats = JNum P
  | false, true => totalCommits stats = JNum (P + R)
  | true, _ =>
      forall (years aggregate : JsVal) (A B : Z) (t0 : Trace),
        js_path res (user_path ++ ["contributionsCollection"; "contributionYears"]) =
          Normal years ->
        fst (totalCommitsFetcher username years t0) = Normal aggregate ->
        js_get aggregate "totalPublicCommits" = Normal (JNum A) ->
        js_get aggregate "totalPrivateCommits" = Normal (JNum B) ->
        totalCommits stats = JNum (if count_private then A + B else A)
  end.
Proof.
  intros Hrun Hres HP HR.
  destruct (fetchStats_inv _ _ _ _ _ _ Hrun)
    as (res' & user & o & c & commits & privateCommits & pub & priv & nodes & events
        & _ & Hres' & Huser & _ & _ & Hcommits & Hprivate & Hagg & _ & _ & _ & Htotal & _).
  rewrite Hres in Hres'. inversion Hres'; subst res'. clear Hres'.
  rewrite (under_user _ _ _ Huser) in HP. rewrite (under_user _ _ _ Huser) in HR.
  rewrite HP in Hcommits. rewrite HR in Hprivate.
  inversion Hcommits; subst commits. inversion Hprivate; subst privateCommits.
  destruct include_all_commits.
  - intros years aggregate A B t0 Hyears Hfst HA HB.
    destruct Hagg as (years' & aggregate' & Hyears' & Hcall & Hpub & Hpriv).
    rewrite (under_user _ _ _ Huser) in Hyears. rewrite Hyears in Hyears'.
    inversion Hyears'; subst years'.
    rewrite totalCommitsFetcher_trace, Hcall in Hfst. cbn [fst] in Hfst.
    inversion Hfst; subst aggregate'.
    rewrite HA in Hpub. rewrite HB in Hpriv.
    inversion Hpub; subst pub. inversion Hpriv; subst priv.
    rewrite Htotal. destruct count_private; reflexivity.
  - destruct Hagg as (-> & -> & _). rewrite Htotal.
    destruct count_private; reflexivity.
Qed.

Lemma commit_total_by_flags_witness :
  option_map totalCommits
    (returned (@fetchStats sample_collab in_issue_order (JStr "octocat") false false []))
    = Some (JNum 10) /\
  option_map totalCommits
    (returned (@fetchStats sample_collab in_issue_order (JStr "octocat") true false []))
    = Some (JNum 15) /\
  option_map totalCommits
    (returned (@fetchStats sample_collab in_issue_order (JStr "octocat") false true []))
    = Some (JNum 100) /\
  option_map totalCommits
    (returned (@fetchStats sample_collab in_reverse_order (JStr "octocat") true true []))
    = Some (JNum 120).
Proof.
  pose (res := envelope (JObj [("user", sample_user [JNum 2021; JNum 2020])])).
  split; [|split; [|split]].
  - destruct (@fetchStats sample_collab in_issue_order (JStr "octocat") false false [])
      as [[stats|e] t'] eqn:Hrun; [|vm_compute in Hrun; discriminate Hrun].
    unfold returned. cbn [fst option_map]. f_equal.
    exact (commit_total_by_flags sample_collab in_issue_order (JStr "octocat")
             false false [] t' stats res 10 5 Hrun eq_refl eq_refl eq_refl).
  - destruct (@fetchStats sample_collab in_issue_order (JStr "octocat") true false [])
      as [[stats|e] t'] eqn:Hrun; [|vm_compute in Hrun; discriminate Hrun].
    unfold returned. cbn [fst option_map]. f_equal.
    exact (commit_total_by_flags sample_collab in_issue_order (JStr "octocat")
             true false [] t' stats res 10 5 Hrun eq_refl eq_refl eq_refl).
  - destruct (@fetchStats sample_collab in_issue_order (JStr "octocat") false true [])
      as [[stats|e] t'] eqn:Hrun; [|vm_compute in Hrun; discriminate Hrun].
    unfold returned. cbn [fst option_map]. f_equal.
    exact (commit_total_by_flags sample_collab in_issue_order (JStr "octocat")
             false true [] t' stats res 10 5 Hrun eq_refl eq_refl eq_refl
             (JArr [JNum 2021; JNum 2020])
             (commit_aggregate (JNum 100) (JNum 20)) 100 20 []
             eq_refl eq_refl eq_refl eq_refl).
  - destruct (@fetchStats sample_collab in_reverse_order (JStr "octocat") true true [])
      as [[stats|e] t'] eqn:Hrun; [|vm_compute in Hrun; discriminate Hrun].
    unfold returned. cbn [fst option_map]. f_equal.
    exact (commit_total_by_flags sample_collab in_reverse_order (JStr "octocat")
             true true [] t' stats res 10 5 Hrun eq_refl eq_refl eq_refl
             (JArr [JNum 2021; JNum 2020])
             (commit_aggregate (JNum 100) (JNum 20)) 100 20 []
             eq_refl eq_refl eq_refl eq_refl).
Defined.

(** C7.  In a run of [fetchStats] that returns a record, [totalStars] is
    the sum of the stargazer counts of the repositories in the [nodes]
    page of the primary answer, and of nothing else: the run sends the
    primary query once, and that query asks for the first 100 owned
    repositories by descending star count. *)
Theorem total_stars_is_page_sum
  (collab : Collaborators) (sched : Scheduler)
  (username : JsVal) (count_private include_all_commits : bool)
  (t t' : Trace) (stats : StatsData) (res : JsVal)
  (nodes : list JsVal) (counts : list Z) :
  fetchStats username count_private include_all_commits t = (Normal stats, t') ->
  retryer fetcher (primary_variables username) = Normal res ->
  js_path res (user_path ++ ["repositories"; "nodes"]) = Normal (JArr nodes) ->
  Forall2 (fun node count =>
             js_path node ["stargazers"; "totalCount"] = Normal (JNum count))
          nodes counts ->
  totalStars stats = JNum (sum_Z counts) /\
  filter is_primary_call (network_calls t') =
    filter is_primary_call (network_calls t) ++ [(fetcher, primary_variables username)] /\
  occurs_in page_clause (query_of fetcher) = true.
Proof.
  intros Hrun Hres Hnodes Hcounts.
  destruct (fetchStats_inv _ _ _ _ _ _ Hrun)
    as (res' & user & o & c & commits & privateCommits & pub & priv & nodes' & events
        & _ & Hres' & Huser & _ & _ & _ & _ & Hagg & Hpage & Hstars & _ & _ & Htrace).
  rewrite Hres in Hres'. inversion Hres'; subst res'. clear Hres'.
  rewrite (under_user _ _ _ Huser) in Hnodes. rewrite Hnodes in Hpage.
  inversion Hpage; subst nodes'.
  rewrite (reduce_stars_sum _ _ Hcounts) in Hstars. inversion Hstars as [Hs].
  split; [reflexivity|]. split; [|vm_compute; reflexivity].
  subst t'. rewrite !network_calls_app, !filter_app. cbn [network_calls filter
    is_primary_call fst]. 
  assert (Hnone : filter is_primary_call (network_calls events) = []).
  { destruct include_all_commits.
    - destruct Hagg as (years & aggregate & _ & Hcall & _).
      pose proof (totalCommitsFetcher_no_primary_call username years) as Hno.
      rewrite Hcall in Hno. exact Hno.
    - destruct Hagg as (_ & _ & ->). reflexivity. }
  rewrite Hnone. now rewrite app_nil_r.
Qed.

Lemma total_stars_is_page_sum_witness :
  option_map totalStars
    (returned (@fetchStats sample_collab in_issue_order (JStr "octocat") true true []))
    = Some (JNum 17).
Proof.
  destruct (@fetchStats sample_collab in_issue_order (JStr "octocat") true true [])
    as [[stats|e] t'] eqn:Hrun; [|vm_compute in Hrun; discriminate Hrun].
  unfold returned. cbn [fst option_map]. f_equal.
  refine (proj1 (total_stars_is_page_sum sample_collab in_issue_order (JStr "octocat")
            true true [] t' stats
            (envelope (JObj [("user", sample_user [JNum 2021; JNum 2020])]))
            [repo_node 5; repo_node 0; repo_node 12] [5; 0; 12]
            Hrun eq_refl eq_refl _)).
  repeat (apply Forall2_cons; [reflexivity|]). apply Forall2_nil.
Defined.

(** C8.  In a run of [fetchStats] that returns a record, [totalIssues] is
    the open issue count plus the closed issue count of the primary
    answer, whatever the flags and whatever the per-year queries answer. *)
Theorem total_issues_is_open_plus_closed
  (collab : Collaborators) (sched : Scheduler)
  (username : JsVal) (count_private include_all_commits : bool)
  (t t' : Trace) (stats : StatsData) (res : JsVal) (openCount closedCount : Z) :
  fetchStats username count_private include_all_commits t = (Normal stats, t') ->
  retryer fetcher (primary_variables username) = Normal res ->
  js_path res (user_path ++ ["openIssues"; "totalCount"]) = Normal (JNum openCount) ->
  js_path res (user_path ++ ["closedIssues"; "totalCount"]) = Normal (JNum closedCount) ->
  totalIssues stats = JNum (openCount + closedCount).
Proof.
  intros Hrun Hres Hopen Hclosed.
  destruct (fetchStats_inv _ _ _ _ _ _ Hrun)
    as (res' & user & o & c & commits & privateCommits & pub & priv & nodes & events
        & _ & Hres' & Huser & Ho & Hc & _ & _ & _ & _ & _ & Hissues & _).
  rewrite Hres in Hres'. inversion Hres'; subst res'. clear Hres'.
  rewrite (under_user _ _ _ Huser) in Hopen.
  rewrite (under_user _ _ _ Huser) in Hclosed.
  rewrite Hopen in Ho. rewrite Hclosed in Hc.
  inversion Ho; subst o. inversion Hc; subst c.
  rewrite Hissues. reflexivity.
Qed.

Lemma total_issues_is_open_plus_closed_witness :
  option_map totalIssues
    (returned (@fetchStats sample_collab in_reverse_order (JStr "octocat") false true []))
    = Some (JNum 10).
Proof.
  destruct (@fetchStats sample_collab in_reverse_order (JStr "octocat") false true [])
    as [[stats|e] t'] eqn:Hrun; [|vm_compute in Hrun; discriminate Hrun].
  unfold returned. cbn [fst option_map]. f_equal.
  exact (total_issues_is_open_plus_closed sample_collab in_reverse_order (JStr "octocat")
           false true [] t' stats
           (envelope (JObj [("user", sample_user [JNum 2021; JNum 2020])]))
           3 7 Hrun eq_refl eq_refl eq_refl).
Defined.

(** C10.  For a non-empty handle that the handle check refuses, a run of
    [fetchStats] with [include_all_commits] that returns a record returns
    one whose [totalCommits] is [undefined], and [NaN] when [count_private]
    is set as well: the aggregator answered the bare number [0], whose
    destructured fields are [undefined]. *)
Theorem malformed_handle_commit_total
  (collab : Collaborators) (sched : Scheduler)
  (handle : string) (count_private : bool) (t t' : Trace) (stats : StatsData) :
  handle <> "" ->
  githubUsernameRegex_test handle = false ->
  fetchStats (JStr handle) count_private true t = (Normal stats, t') ->
  totalCommits stats = (if count_private then JNaN else JUndefined).
Proof.
  intros _ Hbad Hrun.
  destruct (fetchStats_inv _ _ _ _ _ _ Hrun)
    as (res & user & o & c & commits & privateCommits & pub & priv & nodes & events
        & _ & _ & _ & _ & _ & _ & _ & Hagg & _ & _ & _ & Htotal & _).
  destruct Hagg as (years & aggregate & _ & Hcall & Hpub & Hpriv).
  rewrite totalCommitsFetcher_invalid in Hcall by exact Hbad.
  inversion Hcall; subst aggregate events.
  cbn [js_get] in Hpub, Hpriv. inversion Hpub; subst pub. inversion Hpriv; subst priv.
  rewrite Htotal. destruct count_private; reflexivity.
Qed.

Lemma malformed_handle_commit_total_witness :
  option_map totalCommits
    (returned (@fetchStats sample_collab in_issue_order (JStr "octocat-") false true []))
    = Some JUndefined /\
  option_map totalCommits
    (returned (@fetchStats sample_collab in_issue_order (JStr "octocat-") true true []))
    = Some JNaN.
Proof.
  split.
  - destruct (@fetchStats sample_collab in_issue_order (JStr "octocat-") false true [])
      as [[stats|e] t'] eqn:Hrun; [|vm_compute in Hrun; discriminate Hrun].
    unfold returned. cbn [fst option_map]. f_equal.
    refine (malformed_handle_commit_total sample_collab in_issue_order "octocat-"
              false [] t' stats _ eq_refl Hrun).
    discriminate.
  - destruct (@fetchStats sample_collab in_issue_order (JStr "octocat-") true true [])
      as [[stats|e] t'] eqn:Hrun; [|vm_compute in Hrun; discriminate Hrun].
    unfold returned. cbn [fst option_map]. f_equal.
    refine (malformed_handle_commit_total sample_collab in_issue_order "octocat-"
              true [] t' stats _ eq_refl Hrun).
    discriminate.
Defined.

(** * Further properties *)

(** ** The aggregator, beyond the claims *)

Section AggregatorMore.
Context {collab : Collaborators} {sched : Scheduler}.

(** Every run of the aggregator ends normally and only appends to the
    trace. *)
Lemma totalCommitsFetcher_normal username contributionYears t :
  exists a b events,
    totalCommitsFetcher username contributionYears t =
    (Normal (if githubUsernameRegex_test (js_to_string username)
             then commit_aggregate a b else JNum 0),
     t ++ events).
Proof.
  destruct (githubUsernameRegex_test (js_to_string username)) eqn:Hu.
  - destruct (js_array_cases contributionYears) as [[l ->] | Ha].
    + rewrite totalCommitsFetcher_run by exact Hu.
      destruct (promise_all _ _) as [[a b]|e].
      * exists a, b, (map (year_call username) l). reflexivity.
      * exists (JNum 0), (JNum 0), (map (year_call username) l ++ [ELogThrown e]).
        now rewrite app_assoc.
    + rewrite totalCommitsFetcher_not_array by assumption.
      exists (JNum 0), (JNum 0), [ELogThrown TypeError]. reflexivity.
  - rewrite totalCommitsFetcher_invalid by exact Hu.
    exists JUndefined, JUndefined, [ELog (JStr "Invalid username")]. reflexivity.
Qed.




End AggregatorMore.







(** X4.  For a well-formed handle, when the value passed as contribution
    years is not an array (for instance [undefined] or [null]), the
    aggregator sends no request, logs the [TypeError] and returns the
    zeroed aggregate. *)
Theorem aggregator_without_year_array
  (collab : Collaborators) (sched : Scheduler)
  (username contributionYears : JsVal) (t : Trace) :
  githubUsernameRegex_test (js_to_string username) = true ->
  (forall years, contributionYears <> JArr years) ->
  totalCommitsFetcher username contributionYears t =
    (Normal (commit_aggregate (JNum 0) (JNum 0)), t ++ [ELogThrown TypeError]).
Proof.
  intros Hu Hna. apply totalCommitsFetcher_not_array; [exact Hu|].
  destruct (js_array_cases contributionYears) as [[l ->] | Ha]; [|exact Ha].
  now destruct (Hna l).
Qed.

Lemma aggregator_without_year_array_witness :
  @totalCommitsFetcher sample_collab in_issue_order (JStr "octocat") JUndefined [] =
    (Normal (commit_aggregate (JNum 0) (JNum 0)), [ELogThrown TypeError]).
Proof.
  apply (aggregator_without_year_array sample_collab in_issue_order
           (JStr "octocat") JUndefined []).
  - reflexivity.
  - intros years H. discriminate H.
Defined.

Lemma merged_nonnegative (ps : list Promise) :
  Forall (fun p => forall pub priv, period_counts p = Normal (pub, priv) ->
            exists a b, pub = JNum a /\ priv = JNum b /\ 0 <= a /\ 0 <= b) ps ->
  Forall numeric_period ps /\
  exists A B, merged ps = (Some A, Some B) /\ 0 <= A /\ 0 <= B.
Proof.
  induction 1 as [|p ps Hp _ (IHn & A & B & IHm & HA & HB)];
    cbn [merged fold_right].
  - split; [constructor|]. exists 0, 0. repeat split; lia.
  - split.
    + constructor; [|exact IHn]. intros pub priv Hc.
      destruct (Hp pub priv Hc) as (a & b & -> & -> & _). split; reflexivity.
    + fold (merged ps). rewrite IHm. unfold period_numbers.
      destruct (period_counts p) as [[pub priv]|e].
      * destruct (Hp pub priv eq_refl) as (a & b & -> & -> & Ha & Hb).
        exists (a + A), (b + B). cbn. repeat split; lia.
      * exists (0 + A), (0 + B). cbn. repeat split; lia.
Qed.

(** X5.  For a well-formed handle, when every count the executor reports
    is a non-negative integer, the two totals of the aggregate are
    non-negative integers in every case: all periods answered, some
    failed, any arrival order. *)
Theorem aggregate_totals_nonnegative
  (collab : Collaborators) (sched : Scheduler)
  (username : JsVal) (years : list JsVal) (t : Trace) :
  githubUsernameRegex_test (js_to_string username) = true ->
  Forall (fun year => forall pub priv,
            period_counts (year_promise username year) = Normal (pub, priv) ->
            exists a b, pub = JNum a /\ priv = JNum b /\ 0 <= a /\ 0 <= b) years ->
  exists A B,
    fst (totalCommitsFetcher username (JArr years) t) =
      Normal (commit_aggregate (JNum A) (JNum B)) /\
    0 <= A /\ 0 <= B.
Proof.
  intros Hu Hcounts. rewrite totalCommitsFetcher_run by exact Hu.
  set (ps := map (year_promise username) years).
  pose proof (arrive_perm ps) as Hp.
  assert (Hps : Forall (fun p => forall pub priv,
                          period_counts p = Normal (pub, priv) ->
                          exists a b, pub = JNum a /\ priv = JNum b /\ 0 <= a /\ 0 <= b)
                       (arrive ps)).
  { apply (Permutation_Forall Hp). unfold ps. apply Forall_map. exact Hcounts. }
  destruct (merged_nonnegative _ Hps) as (Hn & A & B & Hm & HA & HB).
  destruct (forallb settles_with_counts (arrive ps)) eqn:Hs.
  - change (JNum 0, JNum 0) with (totals_of (Some 0, Some 0)).
    rewrite (promise_all_sums _ Hn Hs), Hm.
    exists A, B. split; [reflexivity | split; assumption].
  - destruct (promise_all_throws _ Hs (JNum 0, JNum 0)) as [e ->].
    exists 0, 0. split; [reflexivity | split; lia].
Qed.

Lemma aggregate_totals_nonnegative_witness :
  exists A B,
    fst (@totalCommitsFetcher sample_collab in_issue_order (JStr "octocat")
           (JArr [JNum 2021; JNum 2019; JNum 2020]) []) =
      Normal (commit_aggregate (JNum A) (JNum B)) /\
    0 <= A /\ 0 <= B.
Proof.
  apply (aggregate_totals_nonnegative sample_collab in_issue_order (JStr "octocat")
           [JNum 2021; JNum 2019; JNum 2020] []).
  - reflexivity.
  - apply Forall_cons; [|apply Forall_cons; [|apply Forall_cons; [|apply Forall_nil]]];
      intros pub priv H; vm_compute in H; try discriminate H;
      inversion H; subst.
    + exists 60, 15. repeat split; lia.
    + exists 40, 5. repeat split; lia.
Defined.

(** ** Runs of [fetchStats], in both directions *)

Section AssemblerMore.
Context {collab : Collaborators} {sched : Scheduler}.

Lemma bind_call {B} f variables (k : Promise -> M B) t :
  bind (call_retryer f variables) k t =
  k (retryer f variables) (t ++ [ECall f variables]).
Proof. reflexivity. Qed.

Lemma bind_lift {A B} (c : Completion A) (k : A -> M B) t :
  bind (lift c) k t =
  match c with
  | Normal a => k a t
  | Throw e => (Throw e, t)
  end.
Proof. unfold bind, lift. destruct c; reflexivity. Qed.

Lemma bind_await {A B} (c : Completion A) (k : A -> M B) t :
  bind (await c) k t =
  match c with
  | Normal a => k a t
  | Throw e => (Throw e, t)
  end.
Proof. apply bind_lift. Qed.

Lemma bind_emit {B} ev (k : unit -> M B) t :
  bind (emit ev) k t = k tt (t ++ [ev]).
Proof. reflexivity. Qed.

Lemma bind_ret {A B} (a : A) (k : A -> M B) t :
  bind (ret a) k t = k a t.
Proof. reflexivity. Qed.

Lemma bind_bind {A B C} (m : M A) (f : A -> M B) (k : B -> M C) t :
  bind (bind m f) k t = bind m (fun a => bind (f a) k) t.
Proof. unfold bind. destruct (m t) as [[a|e] t1]; reflexivity. Qed.

Lemma bind_aggregator {B} username years aggregate events (k : JsVal -> M B) t :
  totalCommitsFetcher username years [] = (Normal aggregate, events) ->
  bind (totalCommitsFetcher username years) k t = k aggregate (t ++ events).
Proof.
  intros H. unfold bind. rewrite totalCommitsFetcher_trace, H. reflexivity.
Qed.


Lemma fetchStats_returned username count_private include_all_commits t stats t' :
  fetchStats username count_private include_all_commits t = (Normal stats, t') ->
  exists res errors user r pub priv events,
    js_truthy username = true /\
    retryer fetcher (primary_variables username) = Normal res /\
    js_path res ["data"; "errors"] = Normal errors /\
    js_truthy errors = false /\
    js_path res user_path = Normal user /\
    read_user user = Normal r /\
    commit_source username user include_all_commits r pub priv events /\
    stats = profile count_private (seen_name r) (seen_open r) (seen_closed r)
              pub priv (seen_prs r) (seen_contributed r) (seen_stars r)
              (seen_repos r) (seen_followers r) /\
    t' = (t ++ [ECall fetcher (primary_variables username)]) ++ events.
Proof.
  intros H. unfold fetchStats in H.
  destruct (js_truthy username) eqn:Hu; cbn [negb] in H; [|discriminate H].
  peel H as pending Hpending. peel H as res Hres. peel H as errors Herrors.
  destruct (js_truthy errors) eqn:Hfalsy.
  { peel H as x1 Hx1. peel H as x2 Hx2. peel H as x3 Hx3. peel H as x4 Hx4.
    discriminate H. }
  peel H as user Huser. peel H as user_name Hname. peel H as shown Hshown.
  assert (tr = t ++ [ECall fetcher (JObj [("login", username)])] /\
          (if js_truthy user_name then Normal user_name else js_get user "login") =
          Normal shown) as [-> Hshown'].
  { destruct (js_truthy user_name).
    - unfold ret in Hshown. now inversion Hshown.
    - apply lift_inv in Hshown. destruct Hshown. now split. }
  clear Hshown.
  peel H as openCount Hopen. peel H as closedCount Hclosed.
  peel H as commits Hcommits. peel H as privateCommits Hprivate.
  peel H as chosen Hchosen. destruct chosen as [stats1 privateCommits1].
  peel H as prCount Hprs. peel H as contributed Hcontributed.
  peel H as nodes Hnodes. peel H as stars Hstars. peel H as repoCount Hrepos.
  peel H as followerCount Hfollowers.
  unfold ret in H. inversion H; subst stats t'; clear H.
  set (r := {| seen_name := shown; seen_open := openCount; seen_closed := closedCount;
               seen_commits := commits; seen_private := privateCommits;
               seen_prs := prCount; seen_contributed := contributed;
               seen_nodes := nodes; seen_stars := stars;
               seen_repos := repoCount; seen_followers := followerCount |}).
  assert (Hread : read_user user = Normal r).
  { unfold read_user. rewrite Hname. cbn [cbind]. rewrite Hshown'. cbn [cbind].
    rewrite Hopen. cbn [cbind]. rewrite Hclosed. cbn [cbind].
    rewrite Hcommits. cbn [cbind]. rewrite Hprivate. cbn [cbind].
    rewrite Hprs. cbn [cbind]. rewrite Hcontributed. cbn [cbind].
    rewrite Hnodes. cbn [cbind]. rewrite Hstars. cbn [cbind].
    rewrite Hrepos. cbn [cbind]. rewrite Hfollowers. reflexivity. }
  destruct include_all_commits.
  - peel Hchosen as years Hyears. peel Hchosen as aggregate Haggregate.
    peel Hchosen as pub Hpub. peel Hchosen as priv Hpriv.
    unfold ret in Hchosen. inversion Hchosen; subst stats1 privateCommits1 tr0.
    clear Hchosen.
    rewrite totalCommitsFetcher_trace in Haggregate. inversion Haggregate as [[Hagg Htr]].
    exists res, errors, user, r, pub, priv, (snd (totalCommitsFetcher username years [])).
    repeat (split; [first [assumption | reflexivity]|]).
    split; [|split].
    + exists years, aggregate. split; [assumption|]. split; [|split; assumption].
      rewrite <- Hagg. now destruct (totalCommitsFetcher username years []).
    + unfold profile. destruct count_private; reflexivity.
    + reflexivity.
  - unfold ret in Hchosen. inversion Hchosen; subst stats1 privateCommits1 tr.
    exists res, errors, user, r, commits, privateCommits, [].
    repeat (split; [first [assumption | reflexivity]|]).
    split; [|split].
    + cbn. auto.
    + unfold profile. destruct count_private; reflexivity.
    + now rewrite app_nil_r.
Qed.


End AssemblerMore.

Section ReadsOfUser.
Context {collab : Collaborators} {sched : Scheduler}.

Lemma read_user_inv user r :
  read_user user = Normal r ->
  exists user_name,
    js_get user "name" = Normal user_name /\
    (if js_truthy user_name then Normal user_name else js_get user "login") =
      Normal (seen_name r) /\
    js_path user ["openIssues"; "totalCount"] = Normal (seen_open r) /\
    js_path user ["closedIssues"; "totalCount"] = Normal (seen_closed r) /\
    js_path user ["contributionsCollection"; "totalCommitContributions"] =
      Normal (seen_commits r) /\
    js_path user ["contributionsCollection"; "restrictedContributionsCount"] =
      Normal (seen_private r) /\
    js_path user ["pullRequests"; "totalCount"] = Normal (seen_prs r) /\
    js_path user ["repositoriesContributedTo"; "totalCount"] =
      Normal (seen_contributed r) /\
    js_path user ["repositories"; "nodes"] = Normal (JArr (seen_nodes r)) /\
    reduce_stars (seen_nodes r) (JNum 0) = Normal (seen_stars r) /\
    js_path user ["repositories"; "totalCount"] = Normal (seen_repos r) /\
    js_path user ["followers"; "totalCount"] = Normal (seen_followers r).
Proof.
  intros Hread. unfold read_user in Hread.
  apply cbind_inv in Hread. destruct Hread as (user_name & Hname & Hread).
  apply cbind_inv in Hread. destruct Hread as (shown & Hshown & Hread).
  apply cbind_inv in Hread. destruct Hread as (o & Ho & Hread).
  apply cbind_inv in Hread. destruct Hread as (c & Hc & Hread).
  apply cbind_inv in Hread. destruct Hread as (commits & Hcommits & Hread).
  apply cbind_inv in Hread. destruct Hread as (privateCommits & Hprivate & Hread).
  apply cbind_inv in Hread. destruct Hread as (prs & Hprs & Hread).
  apply cbind_inv in Hread. destruct Hread as (contributed & Hcontributed & Hread).
  apply cbind_inv in Hread. destruct Hread as (nodes & Hnodes & Hread).
  apply cbind_inv in Hread. destruct Hread as (stars & Hstars & Hread).
  apply cbind_inv in Hread. destruct Hread as (repos & Hrepos & Hread).
  apply cbind_inv in Hread. destruct Hread as (followers & Hfollowers & Hread).
  inversion Hread; subst r; clear Hread.
  apply cbind_inv in Hnodes. destruct Hnodes as (ns & Hns & Harr).
  destruct ns; try discriminate Harr. cbn [js_array] in Harr.
  inversion Harr; subst elems.
  exists user_name. cbn [seen_name seen_open seen_closed seen_commits seen_private
    seen_prs seen_contributed seen_nodes seen_stars seen_repos seen_followers].
  repeat (split; [assumption|]). assumption.
Qed.

(** The aggregator's result can always be destructured. *)
Lemma aggregate_fields username years :
  exists aggregate events pub priv,
    totalCommitsFetcher username years [] = (Normal aggregate, events) /\
    js_get aggregate "totalPublicCommits" = Normal pub /\
    js_get aggregate "totalPrivateCommits" = Normal priv.
Proof.
  destruct (totalCommitsFetcher_normal username years []) as (a & b & events & H).
  rewrite H. cbn [app].
  destruct (githubUsernameRegex_test (js_to_string username)).
  - exists (commit_aggregate a b), events, a, b. repeat split.
  - exists (JNum 0), events, JUndefined, JUndefined. repeat split.
Qed.


End ReadsOfUser.

(** ** The assembler, beyond the claims *)

(** X6.  When the primary request is rejected, [fetchStats] throws the
    rejection as it is, after that single network call and without any
    log line, whatever the flags. *)
Theorem primary_rejection_propagates
  (collab : Collaborators) (sched : Scheduler)
  (username : JsVal) (count_private include_all_commits : bool) (t : Trace)
  (e : Thrown) :
  js_truthy username = true ->
  retryer fetcher (primary_variables username) = Throw e ->
  fetchStats username count_private include_all_commits t =
    (Throw e, t ++ [ECall fetcher (primary_variables username)]).
Proof.
  intros Hu Hres. unfold fetchStats. rewrite Hu. cbn [negb].
  change (JObj [("login", username)]) with (primary_variables username).
  rewrite bind_call, bind_await, Hres. reflexivity.
Qed.

Lemma primary_rejection_propagates_witness :
  @fetchStats
    {| retryer := fun _ _ => Throw (Rejected (JStr "ECONNRESET"));
       githubUsernameRegex_test := handle_regex_test;
       calculateRank := sample_rank |}
    in_issue_order (JStr "octocat") false true [] =
    (Throw (Rejected (JStr "ECONNRESET")),
     [ECall fetcher (JObj [("login", JStr "octocat")])]).
Proof.
  apply (primary_rejection_propagates
           {| retryer := fun _ _ => Throw (Rejected (JStr "ECONNRESET"));
              githubUsernameRegex_test := handle_regex_test;
              calculateRank := sample_rank |}
           in_issue_order (JStr "octocat") false true []
           (Rejected (JStr "ECONNRESET")));
    reflexivity.
Defined.

(** X7.  When the [errors] value of the primary answer is truthy but has
    no readable first element (an empty array, for instance, is truthy),
    [fetchStats] logs it and throws a [TypeError], not the classified
    [CustomError]. *)
Theorem unreadable_errors_throw_type_error
  (collab : Collaborators) (sched : Scheduler)
  (username : JsVal) (count_private include_all_commits : bool) (t : Trace)
  (res errors first : JsVal) :
  js_truthy username = true ->
  retryer fetcher (primary_variables username) = Normal res ->
  js_path res ["data"; "errors"] = Normal errors ->
  js_truthy errors = true ->
  js_get_index errors 0 = Normal first ->
  first = JUndefined \/ first = JNull ->
  fetchStats username count_private include_all_commits t =
    (Throw TypeError,
     t ++ [ECall fetcher (primary_variables username); ELogError errors]).
Proof.
  intros Hu Hres Herr Htruthy Hfirst Hnull. unfold fetchStats. rewrite Hu. cbn [negb].
  change (JObj [("login", username)]) with (primary_variables username).
  rewrite bind_call, bind_await, Hres. cbv beta iota.
  rewrite bind_lift, Herr. cbv beta iota. rewrite Htruthy.
  rewrite bind_lift. cbv beta iota. rewrite bind_emit.
  rewrite bind_lift. cbn [cbind]. rewrite Hfirst.
  rewrite bind_lift. rewrite <- app_assoc.
  destruct Hnull as [-> | ->]; reflexivity.
Qed.

Lemma unreadable_errors_throw_type_error_witness :
  @fetchStats
    {| retryer := fun _ _ => Normal (JObj [("data", JObj [("errors", JArr [])])]);
       githubUsernameRegex_test := handle_regex_test;
       calculateRank := sample_rank |}
    in_issue_order (JStr "octocat") false false [] =
    (Throw TypeError,
     [ECall fetcher (JObj [("login", JStr "octocat")]); ELogError (JArr [])]).
Proof.
  apply (unreadable_errors_throw_type_error
           {| retryer := fun _ _ => Normal (JObj [("data", JObj [("errors", JArr [])])]);
              githubUsernameRegex_test := handle_regex_test;
              calculateRank := sample_rank |}
           in_issue_order (JStr "octocat") false false []
           (JObj [("data", JObj [("errors", JArr [])])]) (JArr []) JUndefined);
    try reflexivity.
  left. reflexivity.
Defined.

(** X8.  When the primary answer has no truthy [errors] and its [user] is
    [null] or absent, or cannot be reached at all, [fetchStats] throws a
    [TypeError] right after the primary call: the aggregator is not
    reached and no record is returned. *)
Theorem missing_user_throws_type_error
  (collab : Collaborators) (sched : Scheduler)
  (username : JsVal) (count_private include_all_commits : bool) (t : Trace)
  (res errors : JsVal) :
  js_truthy username = true ->
  retryer fetcher (primary_variables username) = Normal res ->
  js_path res ["data"; "errors"] = Normal errors ->
  js_truthy errors = false ->
  js_path res user_path = Throw TypeError \/
  js_path res user_path = Normal JNull \/
  js_path res user_path = Normal JUndefined ->
  fetchStats username count_private include_all_commits t =
    (Throw TypeError, t ++ [ECall fetcher (primary_variables username)]).
Proof.
  intros Hu Hres Herr Hfalsy Huser. unfold fetchStats. rewrite Hu. cbn [negb].
  change (JObj [("login", username)]) with (primary_variables username).
  rewrite bind_call, bind_await, Hres. cbv beta iota.
  rewrite bind_lift, Herr. cbv beta iota. rewrite Hfalsy.
  unfold user_path in Huser. rewrite bind_lift.
  destruct Huser as [-> | [-> | ->]]; [reflexivity| |];
    cbv beta iota; rewrite bind_lift; reflexivity.
Qed.

Lemma missing_user_throws_type_error_witness :
  @fetchStats
    {| retryer := fun _ _ => Normal (envelope (JObj [("user", JNull)]));
       githubUsernameRegex_test := handle_regex_test;
       calculateRank := sample_rank |}
    in_issue_order (JStr "ghost") true true [] =
    (Throw TypeError, [ECall fetcher (JObj [("login", JStr "ghost")])]).
Proof.
  apply (missing_user_throws_type_error
           {| retryer := fun _ _ => Normal (envelope (JObj [("user", JNull)]));
              githubUsernameRegex_test := handle_regex_test;
              calculateRank := sample_rank |}
           in_issue_order (JStr "ghost") true true []
           (envelope (JObj [("user", JNull)])) JUndefined);
    try reflexivity.
  right. left. reflexivity.
Defined.

(** X9.  In a run that returns a record, [name] is the [name] of the
    primary answer's user when that is truthy, and the [login] otherwise
    (a [null] or empty display name falls back to the handle). *)
Theorem display_name_falls_back_to_login
  (collab : Collaborators) (sched : Scheduler)
  (username : JsVal) (count_private include_all_commits : bool)
  (t t' : Trace) (stats : StatsData) (res user_name login : JsVal) :
  fetchStats username count_private include_all_commits t = (Normal stats, t') ->
  retryer fetcher (primary_variables username) = Normal res ->
  js_path res (user_path ++ ["name"]) = Normal user_name ->
  js_path res (user_path ++ ["login"]) = Normal login ->
  name stats = (if js_truthy user_name then user_name else login).
Proof.
  intros Hrun Hres Hname Hlogin.
  destruct (fetchStats_returned _ _ _ _ _ _ Hrun)
    as (res' & errors & user & r & pub & priv & events
        & _ & Hres' & _ & _ & Huser & Hread & _ & -> & _).
  rewrite Hres in Hres'. inversion Hres'; subst res'. clear Hres'.
  rewrite (under_user _ _ _ Huser), js_path_one in Hname.
  rewrite (under_user _ _ _ Huser), js_path_one in Hlogin.
  destruct (read_user_inv _ _ Hread) as (n & Hn & Hshown & _).
  rewrite Hname in Hn. inversion Hn; subst n.
  cbn [name profile].
  destruct (js_truthy user_name).
  - now inversion Hshown.
  - rewrite Hlogin in Hshown. now inversion Hshown.
Qed.

Lemma display_name_falls_back_to_login_witness :
  option_map name
    (returned (@fetchStats sample_collab in_issue_order (JStr "octocat") false false []))
    = Some (JStr "octocat").
Proof.
  destruct (@fetchStats sample_collab in_issue_order (JStr "octocat") false false [])
    as [[stats|e] t'] eqn:Hrun; [|vm_compute in Hrun; discriminate Hrun].
  unfold returned. cbn [fst option_map]. f_equal.
  exact (display_name_falls_back_to_login sample_collab in_issue_order (JStr "octocat")
           false false [] t' stats
           (envelope (JObj [("user", sample_user [JNum 2021; JNum 2020])]))
           JNull (JStr "octocat") Hrun eq_refl eq_refl eq_refl).
Defined.

(** X10.  In a run that returns a record, [rank] is [calculateRank]
    applied to the metrics of that very record (the final [totalCommits],
    [contributedTo], [totalStars], [totalPRs], [totalIssues]) together with
    the repository count and the follower count of the primary answer. *)
Theorem rank_is_scored_from_the_record
  (collab : Collaborators) (sched : Scheduler)
  (username : JsVal) (count_private include_all_commits : bool)
  (t t' : Trace) (stats : StatsData) (res repoCount followerCount : JsVal) :
  fetchStats username count_private include_all_commits t = (Normal stats, t') ->
  retryer fetcher (primary_variables username) = Normal res ->
  js_path res (user_path ++ ["repositories"; "totalCount"]) = Normal repoCount ->
  js_path res (user_path ++ ["followers"; "totalCount"]) = Normal followerCount ->
  rank stats =
    calculateRank
      {| Rank.totalCommits := totalCommits stats;
         Rank.totalRepos := repoCount;
         Rank.followers := followerCount;
         Rank.contributions := contributedTo stats;
         Rank.stargazers := totalStars stats;
         Rank.prs := totalPRs stats;
         Rank.issues := totalIssues stats |}.
Proof.
  intros Hrun Hres Hrepos Hfollowers.
  destruct (fetchStats_returned _ _ _ _ _ _ Hrun)
    as (res' & errors & user & r & pub & priv & events
        & _ & Hres' & _ & _ & Huser & Hread & _ & -> & _).
  rewrite Hres in Hres'. inversion Hres'; subst res'. clear Hres'.
  rewrite (under_user _ _ _ Huser) in Hrepos.
  rewrite (under_user _ _ _ Huser) in Hfollowers.
  destruct (read_user_inv _ _ Hread)
    as (n & _ & _ & _ & _ & _ & _ & _ & _ & _ & _ & Hr & Hf).
  rewrite Hrepos in Hr. rewrite Hfollowers in Hf.
  inversion Hr. inversion Hf. reflexivity.
Qed.

Lemma rank_is_scored_from_the_record_witness :
  option_map rank
    (returned (@fetchStats sample_collab in_issue_order (JStr "octocat") true true []))
    = Some (sample_rank
              {| Rank.totalCommits := JNum 120;
                 Rank.totalRepos := JNum 3;
                 Rank.followers := JNum 2;
                 Rank.contributions := JNum 4;
                 Rank.stargazers := JNum 17;
                 Rank.prs := JNum 9;
                 Rank.issues := JNum 10 |}).
Proof.
  destruct (@fetchStats sample_collab in_issue_order (JStr "octocat") true true [])
    as [[stats|e] t'] eqn:Hrun; [|vm_compute in Hrun; discriminate Hrun].
  unfold returned. cbn [fst option_map]. f_equal.
  rewrite (rank_is_scored_from_the_record sample_collab in_issue_order (JStr "octocat")
             true true [] t' stats
             (envelope (JObj [("user", sample_user [JNum 2021; JNum 2020])]))
             (JNum 3) (JNum 2) Hrun eq_refl eq_refl eq_refl).
  vm_compute in Hrun. inversion Hrun. reflexivity.
Defined.

(** X11.  In a run that returns a record, [totalPRs] and [contributedTo]
    are the [totalCount] of [pullRequests] and of
    [repositoriesContributedTo] in the primary answer, unchanged. *)
Theorem counts_are_passed_through
  (collab : Collaborators) (sched : Scheduler)
  (username : JsVal) (count_private include_all_commits : bool)
  (t t' : Trace) (stats : StatsData) (res prCount contributed : JsVal) :
  fetchStats username count_private include_all_commits t = (Normal stats, t') ->
  retryer fetcher (primary_variables username) = Normal res ->
  js_path res (user_path ++ ["pullRequests"; "totalCount"]) = Normal prCount ->
  js_path res (user_path ++ ["repositoriesContributedTo"; "totalCount"]) =
    Normal contributed ->
  totalPRs stats = prCount /\ contributedTo stats = contributed.
Proof.
  intros Hrun Hres Hprs Hcontributed.
  destruct (fetchStats_returned _ _ _ _ _ _ Hrun)
    as (res' & errors & user & r & pub & priv & events
        & _ & Hres' & _ & _ & Huser & Hread & _ & -> & _).
  rewrite Hres in Hres'. inversion Hres'; subst res'. clear Hres'.
  rewrite (under_user _ _ _ Huser) in Hprs.
  rewrite (under_user _ _ _ Huser) in Hcontributed.
  destruct (read_user_inv _ _ Hread)
    as (n & _ & _ & _ & _ & _ & _ & Hp & Hc & _).
  rewrite Hprs in Hp. rewrite Hcontributed in Hc.
  inversion Hp. inversion Hc. split; reflexivity.
Qed.

Lemma counts_are_passed_through_witness :
  option_map (fun stats => (totalPRs stats, contributedTo stats))
    (returned (@fetchStats sample_collab in_issue_order (JStr "octocat") false false []))
    = Some (JNum 9, JNum 4).
Proof.
  destruct (@fetchStats sample_collab in_issue_order (JStr "octocat") false false [])
    as [[stats|e] t'] eqn:Hrun; [|vm_compute in Hrun; discriminate Hrun].
  unfold returned. cbn [fst option_map].
  destruct (counts_are_passed_through sample_collab in_issue_order (JStr "octocat")
              false false [] t' stats
              (envelope (JObj [("user", sample_user [JNum 2021; JNum 2020])]))
              (JNum 9) (JNum 4) Hrun eq_refl eq_refl eq_refl) as [-> ->].
  reflexivity.
Defined.



(** ** What a run can throw, and which requests it sends *)

Lemma js_get_throws v k e : js_get v k = Throw e -> e = TypeError.
Proof.
  destruct v; simpl; intros H; try discriminate H; try (now inversion H);
    destruct (String.eqb k "length"); discriminate H.
Qed.

Lemma js_get_index_throws v i e : js_get_index v i = Throw e -> e = TypeError.
Proof.
  destruct v; simpl; intros H; try discriminate H; try (now inversion H).
  destruct (String.get i s); discriminate H.
Qed.

Lemma js_path_throws ks : forall v e, js_path v ks = Throw e -> e = TypeError.
Proof.
  induction ks as [|k ks IH]; intros v e; cbn [js_path]; [discriminate|].
  destruct (js_get v k) as [w|e'] eqn:Hk; cbn [cbind]; intros H.
  - now apply (IH w).
  - inversion H; subst e'. now apply (js_get_throws v k).
Qed.

Lemma js_array_throws v e : js_array v = Throw e -> e = TypeError.
Proof. destruct v; simpl; intros H; try discriminate H; now inversion H. Qed.

Lemma reduce_stars_throws nodes : forall prev e,
  reduce_stars nodes prev = Throw e -> e = TypeError.
Proof.
  induction nodes as [|curr rest IH]; intros prev e; cbn [reduce_stars];
    [discriminate|].
  destruct (js_path curr ["stargazers"; "totalCount"]) as [c|e'] eqn:Hc;
    cbn [cbind]; intros H.
  - now apply (IH _ _ H).
  - inversion H; subst e'. now apply (js_path_throws _ _ _ Hc).
Qed.

Lemma nodes_throw v e :
  (let? ns := js_path v ["repositories"; "nodes"] in js_array ns) = Throw e ->
  e = TypeError.
Proof.
  destruct (js_path v ["repositories"; "nodes"]) as [ns|e'] eqn:Hns;
    cbn [cbind]; intros H.
  - now apply (js_array_throws ns).
  - inversion H; subst e'. now apply (js_path_throws _ _ _ Hns).
Qed.

Lemma first_error_throws v e :
  (let? errs := js_path v ["data"; "errors"] in js_get_index errs 0) = Throw e ->
  e = TypeError.
Proof.
  destruct (js_path v ["data"; "errors"]) as [errs|e'] eqn:Herrs;
    cbn [cbind]; intros H.
  - now apply (js_get_index_throws errs 0).
  - inversion H; subst e'. now apply (js_path_throws _ _ _ Herrs).
Qed.

(** Every read of [fetchStats] that throws throws a [TypeError]. *)
Ltac type_error H :=
  first [ apply js_path_throws in H
        | apply js_get_throws in H
        | apply nodes_throw in H
        | apply first_error_throws in H
        | apply reduce_stars_throws in H
        | cbn [cbind] in H; apply js_get_index_throws in H
        | cbn [cbind] in H; apply js_array_throws in H ].

(** One read of the program: either it throws, which ends the run and is
    handed to [leaf], or the run goes on. *)
Ltac read_step leaf :=
  lazymatch goal with
  | |- context [bind (lift ?c) _ _] =>
      let H := fresh "Hread" in
      rewrite bind_lift; destruct c eqn:H; cbv beta iota; [|leaf H]
  end.





Ltac calls_leaf H :=
  first [ discriminate H
        | cbn [snd]; rewrite ?network_calls_app; cbn [network_calls];
          rewrite ?app_nil_r; reflexivity ].

(** X14.  Without [include_all_commits], a run sends the primary request
    and nothing else when the handle is truthy, and nothing at all when it
    is not, however the run ends. *)
Theorem without_history_one_request
  (collab : Collaborators) (sched : Scheduler)
  (username : JsVal) (count_private : bool) (t : Trace) :
  network_calls (snd (fetchStats username count_private false t)) =
  network_calls t ++
  (if js_truthy username then [(fetcher, JObj [("login", username)])] else []).
Proof.
  unfold fetchStats. destruct (js_truthy username); cbn [negb].
  2:{ unfold throw. cbn [snd]. now rewrite app_nil_r. }
  rewrite bind_call, bind_await.
  destruct (retryer fetcher (JObj [("login", username)])) as [res|e0];
    cbv beta iota; [|calls_leaf e0].
  read_step calls_leaf. destruct (js_truthy a).
  { read_step calls_leaf. rewrite bind_emit. read_step calls_leaf.
    read_step calls_leaf. unfold throw. calls_leaf a. }
  read_step calls_leaf. read_step calls_leaf.
  destruct (js_truthy a1); [rewrite bind_ret | read_step calls_leaf].
  all: do 4 read_step calls_leaf.
  all: rewrite bind_ret; cbv beta iota; do 6 read_step calls_leaf.
  all: unfold ret; calls_leaf a.
Qed.



(** ** The aggregator inside a run of [fetchStats] *)

Lemma aggregate_degraded
  (collab : Collaborators) (sched : Scheduler)
  (username : JsVal) (years : list JsVal) (t : Trace) :
  githubUsernameRegex_test (js_to_string username) = true ->
  Exists (fun year => period_fails (year_promise username year)) years ->
  fst (totalCommitsFetcher username (JArr years) t) =
    Normal (commit_aggregate (JNum 0) (JNum 0)).
Proof.
  intros Hu Hfail. rewrite totalCommitsFetcher_run by exact Hu.
  assert (Hex : Exists period_fails (arrive (map (year_promise username) years))).
  { apply Exists_exists in Hfail. destruct Hfail as (y & Hin & Hy).
    apply Exists_exists. exists (year_promise username y). split; [|exact Hy].
    apply (Permutation_in _ (arrive_perm _)). now apply in_map. }
  destruct (promise_all_fails _ Hex (JNum 0, JNum 0)) as [e ->].
  reflexivity.
Qed.

(** X16.  In a run with [include_all_commits] on a well-formed handle that
    returns a record, if one of the per-year queries fails then
    [totalCommits] is [0], with or without [count_private]: the counts of
    the primary answer are not used as a fallback. *)
Theorem failed_history_zeroes_commit_total
  (collab : Collaborators) (sched : Scheduler)
  (username : JsVal) (count_private : bool) (t t' : Trace) (stats : StatsData)
  (res : JsVal) (years : list JsVal) :
  fetchStats username count_private true t = (Normal stats, t') ->
  retryer fetcher (primary_variables username) = Normal res ->
  js_path res (user_path ++ ["contributionsCollection"; "contributionYears"]) =
    Normal (JArr years) ->
  githubUsernameRegex_test (js_to_string username) = true ->
  Exists (fun year => period_fails (year_promise username year)) years ->
  totalCommits stats = JNum 0.
Proof.
  intros Hrun Hres Hyears Hu Hfail.
  destruct (fetchStats_returned _ _ _ _ _ _ Hrun)
    as (res' & errors & user & r & pub & priv & events
        & _ & Hres' & _ & _ & Huser & _ & Hsrc & -> & _).
  rewrite Hres in Hres'. inversion Hres'; subst res'. clear Hres'.
  rewrite (under_user _ _ _ Huser) in Hyears.
  cbn [commit_source] in Hsrc.
  destruct Hsrc as (years' & aggregate & Hyears' & Hcall & Hpub & Hpriv).
  rewrite Hyears in Hyears'. inversion Hyears'; subst years'.
  pose proof (aggregate_degraded collab sched username years [] Hu Hfail) as Hzero.
  rewrite Hcall in Hzero. cbn [fst] in Hzero. inversion Hzero; subst aggregate.
  cbn in Hpub, Hpriv. inversion Hpub; subst pub. inversion Hpriv; subst priv.
  cbn [totalCommits profile]. destruct count_private; reflexivity.
Qed.

Lemma failed_history_zeroes_commit_total_witness :
  option_map totalCommits
    (returned
       (@fetchStats
          {| retryer := fun f variables =>
               match f with
               | fetcher =>
                   Normal (envelope (JObj [("user",
                     sample_user [JNum 2021; JNum 2019; JNum 2020])]))
               | fetchYearCommits => sample_year variables
               end;
             githubUsernameRegex_test := handle_regex_test;
             calculateRank := sample_rank |}
          in_issue_order (JStr "octocat") true true [])) = Some (JNum 0).
Proof.
  set (c := {| retryer := fun f variables =>
               match f with
               | fetcher =>
                   Normal (envelope (JObj [("user",
                     sample_user [JNum 2021; JNum 2019; JNum 2020])]))
               | fetchYearCommits => sample_year variables
               end;
             githubUsernameRegex_test := handle_regex_test;
             calculateRank := sample_rank |}).
  destruct (@fetchStats c in_issue_order (JStr "octocat") true true [])
    as [[stats|e] t'] eqn:Hrun; [|vm_compute in Hrun; discriminate Hrun].
  unfold returned. cbn [fst option_map]. f_equal.
  refine (failed_history_zeroes_commit_total c in_issue_order (JStr "octocat")
            true [] t' stats
            (envelope (JObj [("user", sample_user [JNum 2021; JNum 2019; JNum 2020])]))
            [JNum 2021; JNum 2019; JNum 2020] Hrun eq_refl eq_refl eq_refl _).
  apply Exists_cons_tl, Exists_cons_hd. vm_compute. apply fails_rejected.
Defined.



(** ** Arrival order and the record *)

Lemma aggregate_value_any_order
  (collab : Collaborators) (sched sched' : Scheduler)
  (username contributionYears : JsVal) (t t' : Trace) :
  (forall years, contributionYears = JArr years ->
     Forall (fun year => numeric_period (year_promise username year)) years) ->
  fst (@totalCommitsFetcher collab sched username contributionYears t) =
  fst (@totalCommitsFetcher collab sched' username contributionYears t').
Proof.
  intros Hnum.
  destruct (githubUsernameRegex_test (js_to_string username)) eqn:Hu.
  2:{ now rewrite !totalCommitsFetcher_invalid by exact Hu. }
  destruct (js_array_cases contributionYears) as [[years ->] | Ha].
  2:{ now rewrite !totalCommitsFetcher_not_array by assumption. }
  specialize (Hnum years eq_refl).
  rewrite !totalCommitsFetcher_run by exact Hu.
  set (ps := map (year_promise username) years).
  assert (Hpp : Permutation (@arrive sched ps) (@arrive sched' ps)).
  { eapply Permutation_trans; [symmetry; apply arrive_perm | apply arrive_perm]. }
  assert (Hn : Forall numeric_period (@arrive sched ps)).
  { eapply Permutation_Forall; [apply arrive_perm|].
    unfold ps. apply Forall_map. exact Hnum. }
  assert (Hn' : Forall numeric_period (@arrive sched' ps)).
  { eapply Permutation_Forall; [exact Hpp | exact Hn]. }
  pose proof (settles_perm _ _ Hpp) as Hs. symmetry in Hs.
  destruct (forallb settles_with_counts (@arrive sched ps)) eqn:Hall.
  - change (JNum 0, JNum 0) with (totals_of (Some 0, Some 0)).
    rewrite (promise_all_sums _ Hn Hall), (promise_all_sums _ Hn' Hs).
    now rewrite (merged_perm _ _ Hpp).
  - destruct (promise_all_throws _ Hall (JNum 0, JNum 0)) as [e ->].
    destruct (promise_all_throws _ Hs (JNum 0, JNum 0)) as [e' ->].
    reflexivity.
Qed.

Ltac same_leaf H := first [ discriminate H | reflexivity ].

(** One read on both sides of an equation between two runs. *)
Ltac read_both :=
  lazymatch goal with
  | |- context [bind (lift ?c) _ _] =>
      let H := fresh "Hread" in
      rewrite !bind_lift; destruct c eqn:H; cbv beta iota; [|same_leaf H]
  end.

(** X18.  When the per-year counts are values that [+] adds as numbers,
    what [fetchStats] returns or throws does not depend on the order in
    which the per-year answers arrive. *)
Theorem outcome_independent_of_arrival_order
  (collab : Collaborators) (sched sched' : Scheduler)
  (username : JsVal) (count_private include_all_commits : bool) (t : Trace) :
  (forall res years,
     retryer fetcher (primary_variables username) = Normal res ->
     js_path res (user_path ++ ["contributionsCollection"; "contributionYears"]) =
       Normal (JArr years) ->
     Forall (fun year => numeric_period (year_promise username year)) years) ->
  fst (@fetchStats collab sched username count_private include_all_commits t) =
  fst (@fetchStats collab sched' username count_private include_all_commits t).
Proof.
  intros Hnum. unfold fetchStats. destruct (js_truthy username); cbn [negb];
    [|reflexivity].
  change (JObj [("login", username)]) with (primary_variables username).
  rewrite !bind_call, !bind_await.
  destruct (retryer fetcher (primary_variables username)) as [res|e0] eqn:Hres;
    cbv beta iota; [|reflexivity].
  specialize (Hnum res).
  read_both. destruct (js_truthy a).
  { read_both. rewrite !bind_emit. read_both. read_both. reflexivity. }
  read_both. rename a0 into user. rename Hread0 into Huser.
  read_both.
  destruct (js_truthy a0); [rewrite !bind_ret | read_both].
  all: do 4 read_both.
  all: destruct include_all_commits; [|reflexivity].
  all: rewrite !bind_bind; read_both.
  all: match goal with
       | Hy : js_path _ ["contributionsCollection"; "contributionYears"] =
              Normal ?years |- _ =>
           pose proof (aggregate_value_any_order collab sched sched' username years
                         [] []) as Hsame;
           destruct (@aggregate_fields collab sched username years)
             as (aggregate & events & pub & priv & Hcall & Hpub & Hpriv);
           destruct (@aggregate_fields collab sched' username years)
             as (aggregate' & events' & pub' & priv' & Hcall' & Hpub' & Hpriv');
           rewrite Hcall, Hcall' in Hsame; cbn [fst] in Hsame;
           assert (Heq : Normal aggregate = Normal aggregate');
           [ apply Hsame; intros l ->; apply (Hnum l eq_refl);
             change user_path with ["data"; "data"; "user"] in *;
             rewrite js_path_app, Huser; exact Hy
           | inversion Heq; subst aggregate' ]
       end.
  all: rewrite !bind_bind.
  all: rewrite (@bind_aggregator collab sched _ _ _ _ _ _ _ Hcall).
  all: rewrite (@bind_aggregator collab sched' _ _ _ _ _ _ _ Hcall').
  all: rewrite Hpub in Hpub'; inversion Hpub'; subst pub'.
  all: rewrite Hpriv in Hpriv'; inversion Hpriv'; subst priv'.
  all: rewrite !bind_bind, !bind_lift, Hpub; cbv beta iota.
  all: rewrite !bind_bind, !bind_lift, Hpriv; cbv beta iota.
  all: rewrite !bind_ret; cbv beta iota.
  all: do 6 read_both.
  all: reflexivity.
Qed.

Lemma outcome_independent_of_arrival_order_witness :
  fst (@fetchStats sample_collab in_issue_order (JStr "octocat") true true []) =
  fst (@fetchStats sample_collab in_reverse_order (JStr "octocat") true true []).
Proof.
  apply (outcome_independent_of_arrival_order sample_collab in_issue_order
           in_reverse_order (JStr "octocat") true true []).
  intros res years Hres Hyears.
  vm_compute in Hres. inversion Hres; subst res.
  vm_compute in Hyears. inversion Hyears; subst years.
  apply Forall_cons; [|apply Forall_cons; [|apply Forall_nil]];
    intros pub priv H; vm_compute in H; inversion H; subst; split; reflexivity.
Defined.

(** ** A repository page with an unreadable node *)

Lemma reduce_stars_unreadable nodes :
  Exists (fun node => exists e,
            js_path node ["stargazers"; "totalCount"] = Throw e) nodes ->
  forall prev, exists e, reduce_stars nodes prev = Throw e.
Proof.
  induction 1 as [node rest [e He] | node rest _ IH]; intros prev;
    cbn [reduce_stars].
  - rewrite He. cbn [cbind]. eauto.
  - destruct (js_path node ["stargazers"; "totalCount"]); cbn [cbind]; eauto.
Qed.

Ltac throws_leaf H :=
  first [ discriminate H
        | unfold thrown; cbn [fst]; type_error H; now rewrite H ].

(** X19.  When the repository page of the primary answer holds a node
    whose stargazer count cannot be read (a [null] node, for instance),
    [fetchStats] returns no record: it throws a [TypeError], whatever the
    flags and the per-year answers. *)
Theorem unreadable_repository_node_throws
  (collab : Collaborators) (sched : Scheduler)
  (username : JsVal) (count_private include_all_commits : bool) (t : Trace)
  (res errors : JsVal) (nodes : list JsVal) :
  js_truthy username = true ->
  retryer fetcher (primary_variables username) = Normal res ->
  js_path res ["data"; "errors"] = Normal errors ->
  js_truthy errors = false ->
  js_path res (user_path ++ ["repositories"; "nodes"]) = Normal (JArr nodes) ->
  Exists (fun node => exists e,
            js_path node ["stargazers"; "totalCount"] = Throw e) nodes ->
  thrown (fetchStats username count_private include_all_commits t) = Some TypeError.
Proof.
  intros Hu Hres Herr Hfalsy Hnodes Hbad.
  unfold fetchStats. rewrite Hu. cbn [negb].
  change (JObj [("login", username)]) with (primary_variables username).
  rewrite bind_call, bind_await, Hres. cbv beta iota.
  rewrite bind_lift, Herr. cbv beta iota. rewrite Hfalsy.
  read_step throws_leaf. rename a into user. rename Hread into Huser.
  change ["data"; "data"; "user"] with user_path in Huser.
  rewrite (under_user _ _ _ Huser) in Hnodes.
  read_step throws_leaf.
  destruct (js_truthy a); [rewrite bind_ret | read_step throws_leaf].
  all: do 4 read_step throws_leaf.
  all: destruct include_all_commits;
    [ rewrite bind_bind; read_step throws_leaf;
      match goal with
      | |- context [totalCommitsFetcher ?handle ?years] =>
          destruct (aggregate_fields handle years)
            as (aggregate & events & pub & priv & Hcall & Hpub & Hpriv)
      end;
      rewrite bind_bind, (bind_aggregator _ _ _ _ _ _ Hcall);
      rewrite bind_bind, bind_lift, Hpub; cbv beta iota;
      rewrite bind_bind, bind_lift, Hpriv; cbv beta iota;
      rewrite bind_ret
    | rewrite bind_ret ].
  all: cbv beta iota; do 2 read_step throws_leaf.
  all: rewrite bind_lift, Hnodes; cbn [cbind js_array]; cbv beta iota.
  all: destruct (reduce_stars_unreadable _ Hbad (JNum 0)) as [e He].
  all: rewrite bind_lift, He.
  all: apply reduce_stars_throws in He; subst e; reflexivity.
Qed.

Lemma unreadable_repository_node_throws_witness :
  thrown
    (@fetchStats
       {| retryer := fun _ _ =>
            Normal (envelope (JObj [("user",
              JObj [("name", JStr "Ada");
                    ("contributionsCollection",
                      JObj [("totalCommitContributions", JNum 1);
                            ("restrictedContributionsCount", JNum 0);
                            ("contributionYears", JArr [])]);
                    ("repositoriesContributedTo", count_of 0);
                    ("pullRequests", count_of 0);
                    ("openIssues", count_of 0);
                    ("closedIssues", count_of 0);
                    ("followers", count_of 0);
                    ("repositories",
                      JObj [("totalCount", JNum 2);
                            ("nodes", JArr [repo_node 5; JNull])])])]));
          githubUsernameRegex_test := handle_regex_test;
          calculateRank := sample_rank |}
       in_issue_order (JStr "ada") false false []) = Some TypeError.
Proof.
  eapply (unreadable_repository_node_throws _ in_issue_order (JStr "ada") false false []
            _ JUndefined [repo_node 5; JNull]);
    try reflexivity.
  apply Exists_cons_tl, Exists_cons_hd. exists TypeError. reflexivity.
Defined.
